(** * JRF Motorshop: the sale transaction of [app.py]

    A shallow embedding of the [POST /api/sales] handler [process_sale] of
    [app.py], of the helpers it calls ([generate_receipt_number],
    [create_notification], [create_notification_for_role], [log_audit]) and of
    the SQLAlchemy session they share, followed by the properties of the sale
    transaction: stock update, atomicity, notification fan-out, frame.

    Conventions.
    - Python [int] is [Z]; Python [float] amounts are the rationals [Q] they
      denote (finite values; only [>=] and storing are used on them).
    - The builtins [int(str)], [float(str)] and the [:.2f] format are
      parameters of the development ([Builtins]).
    - A request body is taken well-formed: it has the keys the handler reads,
      with numbers where the handler computes with them.
    - The database is a record of tables.  The session is modelled by a store
      (the committed rows), a view (the rows the transaction sees) and the
      [SaleDetail] objects waiting for their INSERT.  An INSERT checks the
      keys the models declare ([primary_key], [unique], [ForeignKey]), as the
      MySQL tables that [app.py] requires do; any other reason for the storage
      to refuse a COMMIT is an input of the request ([commit_results]).
    - One request runs alone; the stored procedures and triggers that
      [setup_database_objects.py] can install are not part of [app.py] and
      are not modelled. *)

From Stdlib Require Import ZArith String Ascii List Lia.
From Stdlib Require QArith.
From stdpp Require Import base option list gmap strings pretty.
Import QArith_base.
Local Open Scope Z_scope.

(** ** Receipt numbers ([generate_receipt_number], app.py 530-533) *)

(** The fields of [datetime.utcnow()] that [strftime('%Y%m%d')] reads. *)
Record datetime := { year : Z; month : Z; day : Z }.

Definition digits : string := "0123456789abcdef".

(** The character of one digit value (decimal for 0..9, hexadecimal up to 15). *)
Definition digit_char (n : Z) : ascii :=
  match String.get (Z.to_nat n) digits with
  | Some c => c
  | None => "?"%char
  end.

(** The last [width] decimal digits of [n]. *)
Fixpoint last_digits (width : nat) (n : Z) : string :=
  match width with
  | O => ""
  | S w => last_digits w (n / 10) +:+ String (digit_char (n mod 10)) ""
  end.

(** ['%0<width>d' % n] for [0 <= n]: the decimal digits of [n], padded with
    zeros on the left to [width] digits. *)
Definition format_d (width : nat) (n : Z) : string :=
  (if n <? 10 ^ Z.of_nat width then "" else pretty (n / 10 ^ Z.of_nat width))
  +:+ last_digits width n.

(** ['%0<width>x' % n] for [0 <= n < 16 ^ width]: exactly [width] digits. *)
Fixpoint format_x (width : nat) (n : Z) : string :=
  match width with
  | O => ""
  | S w => format_x w (n / 16) +:+ String (digit_char (n mod 16)) ""
  end.

(** [d.strftime('%Y%m%d')]: the year on four digits, the month and the day
    on two. *)
Definition strftime_Ymd (d : datetime) : string :=
  format_d 4 (year d) +:+ format_d 2 (month d) +:+ format_d 2 (day d).

(** [str(uuid)] of [uuid.py]: [hex = '%032x' % self.int], printed in the
    groups 8-4-4-4-12.  The argument is the 128-bit [int] of the UUID. *)
Definition str_uuid (u : Z) : string :=
  let hex := format_x 32 u in
  substring 0 8 hex +:+ "-" +:+ substring 8 4 hex +:+ "-" +:+
  substring 12 4 hex +:+ "-" +:+ substring 16 4 hex +:+ "-" +:+
  substring 20 12 hex.

Definition upper_char (c : ascii) : ascii :=
  let n := N_of_ascii c in
  if ((97 <=? n) && (n <=? 122))%N then ascii_of_N (n - 32) else c.

(** [s.upper()] on ASCII text. *)
Fixpoint upper (s : string) : string :=
  match s with
  | EmptyString => EmptyString
  | String c r => String (upper_char c) (upper r)
  end.

(** [generate_receipt_number()], with the clock reading and the random UUID
    it draws made explicit. *)
Definition generate_receipt_number (utcnow : datetime) (uuid4 : Z) : string :=
  "RCP-" +:+ strftime_Ymd utcnow +:+ "-" +:+ upper (substring 0 8 (str_uuid uuid4)).

(** The receipt format [RCP-\d{8}-[A-Z0-9]{8}], as a decision procedure. *)
Definition is_digit (c : ascii) : bool :=
  let n := N_of_ascii c in ((48 <=? n) && (n <=? 57))%N.





(** ** Data model (the models of app.py 87-173 and 334-417)

    Only the columns that [process_sale] and its helpers read or write are
    kept; the auto-incremented ids of [Notification] and [AuditLog] and the
    timestamp defaults are not read by this code and are left out. *)

Module User.
Record t := { id : Z; name : string; role : string }.
End User.

Module Settings.
Record t := { category : string; setting_key : string; setting_value : string }.
End Settings.

Module Notification.
Record t := {
    user_id : Z;
    title : string;
    message : string;
    type : string;
    category : string;
    is_read : bool;
    action_url : option string;
    action_text : option string
}.
End Notification.

(** A [Part] row; its primary key is the key of the [parts] map below. *)
Module Part.
Record t := { name : string; price : Q; stock_quantity : Z }.

(** Assignment to [part.stock_quantity]. *)
Definition set_stock_quantity (v : Z) (p : t) : t :=
  {| name := name p; price := price p; stock_quantity := v |}.
End Part.

Module Sale.
Record t := {
    id : Z;
    total_amount : Q;
    payment_method : string;
    staff_id : Z;
    customer_id : option Z;
    receipt_number : string;
    notes : string
}.
End Sale.

Module SaleDetail.
Record t := { sale_id : Z; part_id : Z; quantity : Z; price_at_sale : Q }.

(** The composite primary key [(sale_id, part_id)]. *)
Definition key (d : t) : Z * Z := (sale_id d, part_id d).
End SaleDetail.

(** One entry of [data['items']]. *)
Module Item.
Record t := { id : Z; quantity : Z; price : Q }.
End Item.

(** The JSON body of the request ([request.get_json()]), with the request
    metadata [log_audit] reads. *)
Module Request.
Record t := {
    total : Q;
    paymentMethod : string;
    customer_id : option Z;
    notes : string;
    items : list Item.t;
    remote_addr : option string;
    user_agent : option string
}.
End Request.

(** The dict that [process_sale] hands to [log_audit] as [new_values]; the
    column stores its [json.dumps] text. *)
Module SaleValues.
Record t := {
    total_amount : Q;
    payment_method : string;
    customer_id : option Z;
    items : list Item.t
}.
End SaleValues.

Module AuditLog.
Record t := {
    user_id : option Z;
    action_type : string;
    table_name : string;
    record_id : option Z;
    old_values : option SaleValues.t;
    new_values : option SaleValues.t;
    ip_address : option string;
    user_agent : option string
}.
End AuditLog.

(** The tables.  [customers] keeps the primary keys of the customers table. *)
Record DB := {
  staff : list User.t;
  settings : list Settings.t;
  customers : list Z;
  parts : gmap Z Part.t;
  sales : list Sale.t;
  sale_details : list SaleDetail.t;
  notifications : list Notification.t;
  audit_logs : list AuditLog.t
}.

Definition with_parts (v : gmap Z Part.t) (db : DB) : DB :=
  {| staff := staff db; settings := settings db; customers := customers db;
     parts := v; sales := sales db; sale_details := sale_details db;
     notifications := notifications db; audit_logs := audit_logs db |}.

Definition with_sales (v : list Sale.t) (db : DB) : DB :=
  {| staff := staff db; settings := settings db; customers := customers db;
     parts := parts db; sales := v; sale_details := sale_details db;
     notifications := notifications db; audit_logs := audit_logs db |}.

Definition with_sale_details (v : list SaleDetail.t) (db : DB) : DB :=
  {| staff := staff db; settings := settings db; customers := customers db;
     parts := parts db; sales := sales db; sale_details := v;
     notifications := notifications db; audit_logs := audit_logs db |}.

Definition with_notifications (v : list Notification.t) (db : DB) : DB :=
  {| staff := staff db; settings := settings db; customers := customers db;
     parts := parts db; sales := sales db; sale_details := sale_details db;
     notifications := v; audit_logs := audit_logs db |}.

Definition with_audit_logs (v : list AuditLog.t) (db : DB) : DB :=
  {| staff := staff db; settings := settings db; customers := customers db;
     parts := parts db; sales := sales db; sale_details := sale_details db;
     notifications := notifications db; audit_logs := v |}.

(** ** The session

    [stored] holds the committed rows, [session] the rows the running
    transaction sees (committed rows and its own changes), [pending] the
    [SaleDetail] objects added to the session and not yet flushed, and
    [faults] the outcome of each COMMIT the storage will be asked for, in
    order ([false]: the storage refuses it; an exhausted list: it accepts). *)
Record World := {
  stored : DB;
  session : DB;
  pending : list SaleDetail.t;
  faults : list bool
}.

(** The Python exceptions this code can meet. *)
Inductive exn :=
| ValueError          (* int() on text that is no integer *)
| IntegrityError      (* a key constraint refused an INSERT *)
| OperationalError    (* the storage refused the COMMIT *)
| ObjectDeletedError. (* the row of a loaded object is gone *)

(** Computations on the session that may raise. *)
Definition M (A : Type) : Type := World -> (exn + A) * World.

#[global] Instance M_ret : MRet M := fun A a w => (inr a, w).

#[global] Instance M_bind : MBind M := fun A B f m w =>
  match m w with
  | (inr a, w') => f a w'
  | (inl e, w') => (inl e, w')
  end.

Definition raise {A : Type} (e : exn) : M A := fun w => (inl e, w).

(** [try: body / except Exception as e: handler e]. *)
Definition try_except {A : Type} (body : M A) (handler : exn -> M A) : M A :=
  fun w =>
    match body w with
    | (inr a, w') => (inr a, w')
    | (inl e, w') => handler e w'
    end.

(** A [for] loop threading an accumulator. *)
Fixpoint for_each {A B : Type} (f : B -> A -> M B) (l : list A) (acc : B) : M B :=
  match l with
  | [] => mret acc
  | x :: r => acc' ← f acc x; for_each f r acc'
  end.

(** A query evaluated on the rows the transaction sees. *)
Definition query {A : Type} (f : DB -> A) : M A := fun w => (inr (f (session w)), w).

(** A change made through the session (a new object, or an attribute of a
    loaded one). *)
Definition modify (f : DB -> DB) : M unit := fun w =>
  (inr tt, {| stored := stored w; session := f (session w);
              pending := pending w; faults := faults w |}).

(** The INSERT of a [Sale] row: [receipt_number] is [unique], [staff_id] and
    [customer_id] are foreign keys (app.py 365-374). *)
Definition insert_sale (s : Sale.t) (db : DB) : option DB :=
  if bool_decide (Sale.receipt_number s ∈ map Sale.receipt_number (sales db)) then None
  else if negb (bool_decide (Sale.staff_id s ∈ map User.id (staff db))) then None
  else match Sale.customer_id s with
       | Some c => if bool_decide (c ∈ customers db)
                   then Some (with_sales (sales db ++ [s]) db) else None
       | None => Some (with_sales (sales db ++ [s]) db)
       end.

(** The INSERT of a [SaleDetail] row: [(sale_id, part_id)] is the primary
    key, and both columns are foreign keys (app.py 378-383). *)
Definition insert_sale_detail (d : SaleDetail.t) (db : DB) : option DB :=
  if bool_decide (SaleDetail.key d ∈ map SaleDetail.key (sale_details db)) then None
  else if negb (bool_decide (SaleDetail.sale_id d ∈ map Sale.id (sales db))) then None
  else if negb (bool_decide (is_Some (parts db !! SaleDetail.part_id d))) then None
  else Some (with_sale_details (sale_details db ++ [d]) db).

Fixpoint flush_details (ds : list SaleDetail.t) (db : DB) : option DB :=
  match ds with
  | [] => Some db
  | d :: r =>
      match insert_sale_detail d db with
      | Some db' => flush_details r db'
      | None => None
      end
  end.

(** [db.session.add(new_sale); db.session.flush()] (app.py 2163-2164): the
    row is inserted at once, with the id [AUTO_INCREMENT] assigned to it. *)
Definition add_and_flush_sale (s : Sale.t) : M unit := fun w =>
  match insert_sale s (session w) with
  | Some db => (inr tt, {| stored := stored w; session := db;
                           pending := pending w; faults := faults w |})
  | None => (inl IntegrityError, w)
  end.

(** [db.session.add(sale_detail)]: the object waits in the session for the
    next flush.  (The session may also flush by itself before a query; the
    INSERT then raises there, inside the same [try], to the same effect.) *)
Definition add_sale_detail (d : SaleDetail.t) : M unit := fun w =>
  (inr tt, {| stored := stored w; session := session w;
              pending := pending w ++ [d]; faults := faults w |}).

(** The state of the session once its transaction is rolled back. *)
Definition rolled_back (w : World) (fs : list bool) : World :=
  {| stored := stored w; session := stored w; pending := []; faults := fs |}.

(** [db.session.commit()]: flush the pending objects, then COMMIT.  When
    either step raises, SQLAlchemy has rolled the transaction back before the
    exception reaches the caller. *)
Definition commit : M unit := fun w =>
  match flush_details (pending w) (session w) with
  | None => (inl IntegrityError, rolled_back w (faults w))
  | Some db =>
      match faults w with
      | false :: fs => (inl OperationalError, rolled_back w fs)
      | true :: fs =>
          (inr tt, {| stored := db; session := db; pending := []; faults := fs |})
      | [] =>
          (inr tt, {| stored := db; session := db; pending := []; faults := [] |})
      end
  end.

(** [db.session.rollback()]. *)
Definition rollback : M unit := fun w => (inr tt, rolled_back w (faults w)).

(** ** The helpers and the handler *)

(** The Python builtins applied to text and amounts: [int(s)] and [float(s)]
    ([None] when they raise) and the format [f'{x:.2f}']. *)
Record Builtins := {
  py_int : string -> option Z;
  py_float : string -> option Q;
  format_2f : Q -> string
}.

(** What one request gets from outside the database: the authenticated user,
    the clock and the UUID drawn for the receipt, the id [AUTO_INCREMENT]
    gives the new [Sale], and the outcome of each COMMIT. *)
Record Env := {
  current_user : User.t;
  utcnow : datetime;
  uuid4 : Z;
  new_sale_id : Z;
  commit_results : list bool
}.

(** The response: [jsonify(success=True, sale_id, receipt_number)], or
    [jsonify(success=False, message=...)] with status 500. *)
Inductive Response :=
| SaleProcessed (sale_id : Z) (receipt_number : string)
| SaleFailed (e : exn).

Definition status_code (r : Response) : Z :=
  match r with
  | SaleProcessed _ _ => 200
  | SaleFailed _ => 500
  end.

(** [Settings.query.filter_by(category=.., setting_key=..).first()]. *)
Definition Settings_first (category key : string) : M (option Settings.t) :=
  query (fun db =>
    find (fun s => String.eqb (Settings.category s) category
                   && String.eqb (Settings.setting_key s) key) (settings db)).

(** [User.query.filter_by(role=role).all()]. *)
Definition users_by_role (role : string) (db : DB) : list User.t :=
  List.filter (fun u => String.eqb (User.role u) role) (staff db).

(** The [Notification(...)] object built by [create_notification]. *)
Definition new_notification (user_id : Z) (title message type category : string)
    (action_url action_text : option string) : Notification.t :=
  {| Notification.user_id := user_id; Notification.title := title;
     Notification.message := message; Notification.type := type;
     Notification.category := category; Notification.is_read := false;
     Notification.action_url := action_url;
     Notification.action_text := action_text |}.

(** [create_notification] (app.py 253-266). *)
Definition create_notification (user_id : Z) (title message type category : string)
    (action_url action_text : option string) : M Notification.t :=
  let notification :=
    new_notification user_id title message type category action_url action_text in
  modify (fun db => with_notifications (notifications db ++ [notification]) db);;
  commit;;
  mret notification.

(** [create_notification_for_role] (app.py 268-275). *)
Definition create_notification_for_role (role title message type category : string)
    (action_url action_text : option string) : M (list Notification.t) :=
  users ← query (users_by_role role);
  for_each (fun notifications user =>
      notification ← create_notification (User.id user) title message type category
                       action_url action_text;
      mret (notifications ++ [notification]))
    users [].

(** [log_audit] (app.py 498-514).  [user_id or (current_user.id if
    current_user.is_authenticated else None)]: the route is [login_required],
    so the user is authenticated. *)
Definition log_audit (current_user : User.t) (req : Request.t)
    (action_type table_name : string) (record_id : option Z)
    (old_values new_values : option SaleValues.t) (user_id : option Z) : M unit :=
  let audit :=
    {| AuditLog.user_id :=
         match user_id with
         | Some u => if u =? 0 then Some (User.id current_user) else Some u
         | None => Some (User.id current_user)
         end;
       AuditLog.action_type := action_type;
       AuditLog.table_name := table_name;
       AuditLog.record_id := record_id;
       AuditLog.old_values := old_values;
       AuditLog.new_values := new_values;
       AuditLog.ip_address := Request.remote_addr req;
       AuditLog.user_agent := Request.user_agent req |} in
  modify (fun db => with_audit_logs (audit_logs db ++ [audit]) db);;
  commit.

Section ProcessSale.
Context (py : Builtins) (env : Env) (req : Request.t).

(** The [Sale(...)] object of app.py 2154-2161, with the id the flush gives it. *)
Definition new_sale : Sale.t :=
  {| Sale.id := new_sale_id env;
     Sale.total_amount := Request.total req;
     Sale.payment_method := Request.paymentMethod req;
     Sale.staff_id := User.id (current_user env);
     Sale.customer_id := Request.customer_id req;
     Sale.receipt_number := generate_receipt_number (utcnow env) (uuid4 env);
     Sale.notes := Request.notes req |}.

Definition new_sale_detail (item : Item.t) : SaleDetail.t :=
  {| SaleDetail.sale_id := Sale.id new_sale;
     SaleDetail.part_id := Item.id item;
     SaleDetail.quantity := Item.quantity item;
     SaleDetail.price_at_sale := Item.price item |}.

(** One turn of the loop of app.py 2175-2194.  [low_stock_items] holds the
    loaded [Part] objects, that is, references to rows: their keys. *)
Definition sell_item (low_stock_threshold : Z) (low_stock_items : list Z)
    (item : Item.t) : M (list Z) :=
  add_sale_detail (new_sale_detail item);;
  part ← query (fun db => parts db !! Item.id item);
  match part with
  | Some p =>
      let p1 := Part.set_stock_quantity (Part.stock_quantity p - Item.quantity item) p in
      let p2 := if Part.stock_quantity p1 <? 0 then Part.set_stock_quantity 0 p1 else p1 in
      modify (fun db => with_parts (<[Item.id item := p2]> (parts db)) db);;
      if (Part.stock_quantity p2 <? low_stock_threshold) && (0 <=? Part.stock_quantity p2)
      then mret (low_stock_items ++ [Item.id item])
      else mret low_stock_items
  | None => mret low_stock_items
  end.

(** app.py 2147-2194: everything up to the commit. *)
Definition stage_sale : M (list Z) :=
  add_and_flush_sale new_sale;;
  let items := Request.items req in
  threshold_setting ← Settings_first "inventory" "low_stock_threshold";
  low_stock_threshold ←
    match threshold_setting with
    | Some s =>
        match py_int py (Settings.setting_value s) with
        | Some n => mret n
        | None => raise ValueError
        end
    | None => mret 5
    end;
  for_each (sell_item low_stock_threshold) items [].

(** app.py 2199-2210.  After the commit the attributes of a loaded object
    are read again from its row. *)
Definition critical_stock_alerts (low_stock_items : list Z) : M unit :=
  for_each (fun _ part_id =>
      part ← query (fun db => parts db !! part_id);
      match part with
      | Some part =>
          if Part.stock_quantity part <=? 2
          then
            create_notification_for_role "manager" "Critical Stock Alert"
              (Part.name part +:+ " is critically low on stock ("
                 +:+ pretty (Part.stock_quantity part) +:+ " remaining)")
              "warning" "inventory" (Some "/inventory") (Some "View Inventory");;
            mret tt
          else mret tt
      | None => raise ObjectDeletedError
      end)
    low_stock_items tt.

(** app.py 2212-2222. *)
Definition sale_completed : M unit :=
  let sale_identifier :=
    if String.eqb (Sale.receipt_number new_sale) ""
    then "Sale #" +:+ pretty (Sale.id new_sale)
    else Sale.receipt_number new_sale in
  create_notification (User.id (current_user env)) "Sale Completed"
    (sale_identifier +:+ " completed for ₱"
       +:+ format_2f py (Request.total req) +:+ ".")
    "success" "sales" (Some "/sales") (Some "View Sale");;
  mret tt.

(** app.py 2224-2252. *)
Definition high_value_alerts : M unit :=
  high_value_threshold ←
    try_except
      (high_value_threshold_setting ← Settings_first "sales" "high_value_sale_threshold";
       match high_value_threshold_setting with
       | Some s =>
           match py_float py (Settings.setting_value s) with
           | Some x => mret x
           | None => raise ValueError
           end
       | None => mret (inject_Z 5000)
       end)
      (fun _ => mret (inject_Z 5000));
  if Qle_bool high_value_threshold (Request.total req)
  then
    let message :=
      "High value sale of ₱" +:+ format_2f py (Request.total req)
        +:+ " processed by " +:+ User.name (current_user env) +:+ "." in
    create_notification_for_role "manager" "High Value Sale" message
      "warning" "sales" (Some "/reports") (Some "View Reports");;
    create_notification_for_role "admin" "High Value Sale" message
      "warning" "sales" (Some "/reports") (Some "View Reports");;
    mret tt
  else mret tt.

(** app.py 2254-2279. *)
Definition sales_milestone : M unit :=
  try_except
    (total_sales_count ← query (fun db => Z.of_nat (length (sales db)));
     if (0 <? total_sales_count) && (total_sales_count mod 10 =? 0)
     then
       let milestone_message :=
         pretty total_sales_count +:+ " total sales have been completed." in
       create_notification_for_role "manager" "Sales Milestone Reached" milestone_message
         "info" "sales" (Some "/reports") (Some "View Reports");;
       create_notification_for_role "admin" "Sales Milestone Reached" milestone_message
         "info" "sales" (Some "/reports") (Some "View Reports");;
       mret tt
     else mret tt)
    (fun _ => mret tt).

(** app.py 2281-2287. *)
Definition log_sale : M unit :=
  log_audit (current_user env) req "create" "sales" (Some (Sale.id new_sale)) None
    (Some {| SaleValues.total_amount := Request.total req;
             SaleValues.payment_method := Request.paymentMethod req;
             SaleValues.customer_id := Request.customer_id req;
             SaleValues.items := Request.items req |})
    (Some (User.id (current_user env))).

(** app.py 2198-2294: what follows the commit. *)
Definition after_commit (low_stock_items : list Z) : M Response :=
  critical_stock_alerts low_stock_items;;
  sale_completed;;
  high_value_alerts;;
  sales_milestone;;
  log_sale;;
  mret (SaleProcessed (Sale.id new_sale) (Sale.receipt_number new_sale)).

(** [process_sale] (app.py 2142-2301). *)
Definition process_sale : M Response :=
  try_except
    (low_stock_items ← stage_sale;
     commit;;
     after_commit low_stock_items)
    (fun e => rollback;; mret (SaleFailed e)).

(** The session a request starts with: nothing staged. *)
Definition begin (db : DB) : World :=
  {| stored := db; session := db; pending := []; faults := commit_results env |}.

(** One [POST /api/sales]: the response and the committed rows it leaves.
    (The [except] clause catches every exception of the body, and the handler
    raises none; Flask would answer one with status 500 as well.) *)
Definition post_api_sales (db : DB) : Response * DB :=
  match process_sale (begin db) with
  | (inr r, w) => (r, stored w)
  | (inl e, w) => (SaleFailed e, stored w)
  end.

End ProcessSale.

(** ** A concrete instance, for the examples

    The builtins on plain decimal text, a small shop, and requests. *)
Module Sample.

Definition digit_value (c : ascii) : option Z :=
  if is_digit c then Some (Z.of_N (N_of_ascii c) - 48) else None.

Fixpoint parse_digits (s : string) (acc : Z) : option Z :=
  match s with
  | EmptyString => Some acc
  | String c r =>
      match digit_value c with
      | Some d => parse_digits r (10 * acc + d)
      | None => None
      end
  end.

(** [int(s)] on an optional minus sign followed by decimal digits. *)
Definition parse_int (s : string) : option Z :=
  match s with
  | EmptyString => None
  | String "-" EmptyString => None
  | String "-" r => Z.opp <$> parse_digits r 0
  | _ => parse_digits s 0
  end.

Fixpoint parse_fraction (s : string) (num den : Z) : option Q :=
  match s with
  | EmptyString => Some (Qmake num (Z.to_pos den))
  | String c r =>
      match digit_value c with
      | Some d => parse_fraction r (10 * num + d) (10 * den)
      | None => None
      end
  end.

Fixpoint parse_decimal (s : string) (acc : Z) : option Q :=
  match s with
  | EmptyString => Some (inject_Z acc)
  | String "." r => parse_fraction r acc 1
  | String c r =>
      match digit_value c with
      | Some d => parse_decimal r (10 * acc + d)
      | None => None
      end
  end.

(** [float(s)] on unsigned decimal text with at least one leading digit. *)
Definition parse_float (s : string) : option Q :=
  match s with
  | EmptyString => None
  | String "." _ => None
  | _ => parse_decimal s 0
  end.

(** The nearest integer of [q >= 0], ties to even. *)
Definition round_half_even (q : Q) : Z :=
  let n := Qnum q in
  let d := Z.pos (Qden q) in
  match (2 * (n mod d) ?= d) with
  | Lt => n / d
  | Gt => n / d + 1
  | Eq => if Z.even (n / d) then n / d else n / d + 1
  end.

(** [f'{q:.2f}']. *)
Definition two_decimals (q : Q) : string :=
  let c := round_half_even (Qmake (Z.abs (Qnum q) * 100) (Qden q)) in
  (if Qnum q <? 0 then "-" else "") +:+ pretty (c / 100) +:+ "." +:+ format_d 2 (c mod 100).

Definition py : Builtins :=
  {| py_int := parse_int; py_float := parse_float; format_2f := two_decimals |}.

Definition cashier : User.t := {| User.id := 1; User.name := "Ana"; User.role := "staff" |}.
Definition manager : User.t := {| User.id := 2; User.name := "Ben"; User.role := "manager" |}.
Definition admin : User.t := {| User.id := 3; User.name := "Cora"; User.role := "admin" |}.

Definition part (name : string) (stock : Z) : Part.t :=
  {| Part.name := name; Part.price := inject_Z 100; Part.stock_quantity := stock |}.

(** A shop with three users, one customer and two parts in stock. *)
Definition shop (stock1 stock2 : Z) (settings : list Settings.t) : DB :=
  {| staff := [cashier; manager; admin];
     settings := settings;
     customers := [7];
     parts := <[1 := part "Spark plug" stock1]> (<[2 := part "Brake pad" stock2]> ∅);
     sales := []; sale_details := []; notifications := []; audit_logs := [] |}.

Definition env (commit_results : list bool) : Env :=
  {| current_user := cashier;
     utcnow := {| year := 2026; month := 3; day := 9 |};
     uuid4 := 0x3f2a9c01aabb4cdd8eef001122334455;
     new_sale_id := 1;
     commit_results := commit_results |}.

Definition item (id quantity : Z) (price : Z) : Item.t :=
  {| Item.id := id; Item.quantity := quantity; Item.price := inject_Z price |}.

Definition request (total : Z) (items : list Item.t) : Request.t :=
  {| Request.total := inject_Z total; Request.paymentMethod := "cash";
     Request.customer_id := None; Request.notes := "";
     Request.items := items;
     Request.remote_addr := Some "127.0.0.1"; Request.user_agent := None |}.

End Sample.

(** ** Vocabulary of the statements *)

(** The part a cart line leaves behind: the assignments of app.py 2188-2190. *)
Definition after_sale (quantity : Z) (p : Part.t) : Part.t :=
  let p1 := Part.set_stock_quantity (Part.stock_quantity p - quantity) p in
  if Part.stock_quantity p1 <? 0 then Part.set_stock_quantity 0 p1 else p1.

(** The test of app.py 2193. *)
Definition is_low (threshold : Z) (p : Part.t) : bool :=
  (Part.stock_quantity p <? threshold) && (0 <=? Part.stock_quantity p).

(** The parts and the [low_stock_items] the loop of app.py 2175-2194 builds. *)
Fixpoint staged (threshold : Z) (items : list Item.t) (m : gmap Z Part.t)
    (low : list Z) : gmap Z Part.t * list Z :=
  match items with
  | [] => (m, low)
  | item :: r =>
      match m !! Item.id item with
      | Some p =>
          let p2 := after_sale (Item.quantity item) p in
          staged threshold r (<[Item.id item := p2]> m)
            (if is_low threshold p2 then low ++ [Item.id item] else low)
      | None => staged threshold r m low
      end
  end.

(** The low-stock threshold of app.py 2172-2173; [None] when [int()] raises. *)
Definition low_stock_threshold (py : Builtins) (db : DB) : option Z :=
  match find (fun s => String.eqb (Settings.category s) "inventory"
                       && String.eqb (Settings.setting_key s) "low_stock_threshold")
          (settings db) with
  | Some s => py_int py (Settings.setting_value s)
  | None => Some 5
  end.

(** The high-value threshold of app.py 2225-2231. *)
Definition high_value_threshold (py : Builtins) (db : DB) : Q :=
  match find (fun s => String.eqb (Settings.category s) "sales"
                       && String.eqb (Settings.setting_key s) "high_value_sale_threshold")
          (settings db) with
  | Some s =>
      match py_float py (Settings.setting_value s) with
      | Some x => x
      | None => inject_Z 5000
      end
  | None => inject_Z 5000
  end.

(** Nothing is staged: the session sees the committed rows. *)
Definition clean (w : World) : Prop := session w = stored w /\ pending w = [].

(** The storage accepts every commit it is asked for. *)
Definition all_ok (fs : list bool) : Prop := Forall (fun b => b = true) fs.

(** The table of notifications with [ns] appended. *)
Definition add_notifications (ns : list Notification.t) (db : DB) : DB :=
  with_notifications (notifications db ++ ns) db.

(** [w'] is [w] after the notifications [ns] were committed, one by one. *)
Definition follows (ns : list Notification.t) (w w' : World) : Prop :=
  clean w' /\ stored w' = add_notifications ns (stored w)
  /\ (all_ok (faults w) -> all_ok (faults w')).

(** [m] commits the notifications [ns] in order; it raises only when the
    storage refuses a commit, and then a prefix of [ns] is committed. *)
Definition runs {A : Type} (m : M A) (w : World) (ns : list Notification.t) : Prop :=
  match m w with
  | (inr _, w') => follows ns w w'
  | (inl _, w') => (exists k, follows (take k ns) w w') /\ ~ all_ok (faults w)
  end.

Section Expected.
Context (py : Builtins) (env : Env) (req : Request.t).

(** One notification per user of a role. *)
Definition fan_out (role title message type category : string)
    (action_url action_text : option string) (db : DB) : list Notification.t :=
  map (fun u => new_notification (User.id u) title message type category
                  action_url action_text)
    (users_by_role role db).

(** The warning of app.py 2202-2210 about the part [p], for every manager. *)
Definition critical_alert (p : Part.t) (db : DB) : list Notification.t :=
  fan_out "manager" "Critical Stock Alert"
    (Part.name p +:+ " is critically low on stock ("
       +:+ pretty (Part.stock_quantity p) +:+ " remaining)")
    "warning" "inventory" (Some "/inventory") (Some "View Inventory") db.

(** The alerts of the loop of app.py 2200-2210 over [low_stock_items]. *)
Definition critical_alerts_of (low : list Z) (db : DB) : list Notification.t :=
  flat_map (fun i =>
      match parts db !! i with
      | Some p => if Part.stock_quantity p <=? 2 then critical_alert p db else []
      | None => []
      end) low.

(** The same alerts, read off the cart: a line alerts the managers when the
    stock it leaves is at most 2 and below the low-stock threshold. *)
Definition critical_alerts (threshold : Z) (db : DB) : list Notification.t :=
  flat_map (fun item =>
      match parts db !! Item.id item with
      | Some p =>
          if (Part.stock_quantity p <=? 2) && (Part.stock_quantity p <? threshold)
          then critical_alert p db else []
      | None => []
      end) (Request.items req).

(** The notification of app.py 2214-2222. *)
Definition completion_notice : Notification.t :=
  new_notification (User.id (current_user env)) "Sale Completed"
    ((if String.eqb (Sale.receipt_number (new_sale env req)) ""
      then "Sale #" +:+ pretty (Sale.id (new_sale env req))
      else Sale.receipt_number (new_sale env req))
       +:+ " completed for ₱" +:+ format_2f py (Request.total req) +:+ ".")
    "success" "sales" (Some "/sales") (Some "View Sale").

Definition high_value_message : string :=
  "High value sale of ₱" +:+ format_2f py (Request.total req)
    +:+ " processed by " +:+ User.name (current_user env) +:+ ".".

(** The notifications of app.py 2233-2252. *)
Definition high_value_notices (db : DB) : list Notification.t :=
  if Qle_bool (high_value_threshold py db) (Request.total req)
  then
    fan_out "manager" "High Value Sale" high_value_message
      "warning" "sales" (Some "/reports") (Some "View Reports") db
    ++ fan_out "admin" "High Value Sale" high_value_message
         "warning" "sales" (Some "/reports") (Some "View Reports") db
  else [].

(** The notifications of app.py 2256-2276. *)
Definition milestone_notices (db : DB) : list Notification.t :=
  let count := Z.of_nat (length (sales db)) in
  if (0 <? count) && (count mod 10 =? 0)
  then
    fan_out "manager" "Sales Milestone Reached"
      (pretty count +:+ " total sales have been completed.")
      "info" "sales" (Some "/reports") (Some "View Reports") db
    ++ fan_out "admin" "Sales Milestone Reached"
         (pretty count +:+ " total sales have been completed.")
         "info" "sales" (Some "/reports") (Some "View Reports") db
  else [].

(** The audit entry of app.py 2282-2287. *)
Definition sale_audit : AuditLog.t :=
  {| AuditLog.user_id := Some (User.id (current_user env));
     AuditLog.action_type := "create";
     AuditLog.table_name := "sales";
     AuditLog.record_id := Some (new_sale_id env);
     AuditLog.old_values := None;
     AuditLog.new_values :=
       Some {| SaleValues.total_amount := Request.total req;
               SaleValues.payment_method := Request.paymentMethod req;
               SaleValues.customer_id := Request.customer_id req;
               SaleValues.items := Request.items req |};
     AuditLog.ip_address := Request.remote_addr req;
     AuditLog.user_agent := Request.user_agent req |}.

(** The rows of the sale itself, as the commit of app.py 2196 stores them. *)
Definition sold (threshold : Z) (db : DB) : DB :=
  with_sale_details (sale_details db ++ map (new_sale_detail env req) (Request.items req))
    (with_parts (staged threshold (Request.items req) (parts db) []).1
       (with_sales (sales db ++ [new_sale env req]) db)).

(** What the key constraints ask of the cart lines. *)
Definition lines_insertable (db : DB) : Prop :=
  NoDup (map Item.id (Request.items req))
  /\ Forall (fun item =>
       is_Some (parts db !! Item.id item)
       /\ ((new_sale_id env, Item.id item) ∉ map SaleDetail.key (sale_details db)))
     (Request.items req).

(** What the key constraints ask of the [Sale] row. *)
Definition sale_insertable (db : DB) : Prop :=
  (Sale.receipt_number (new_sale env req) ∉ map Sale.receipt_number (sales db))
  /\ (User.id (current_user env) ∈ map User.id (staff db))
  /\ match Request.customer_id req with
     | Some c => c ∈ customers db
     | None => True
     end.

End Expected.

(** The notifications a request added to the table. *)
Definition created (db db' : DB) : list Notification.t :=
  drop (length (notifications db)) (notifications db').

(** The notifications of category "inventory": of the notifications a sale
    creates, the critical-stock alerts. *)
Definition is_inventory (n : Notification.t) : bool :=
  String.eqb (Notification.category n) "inventory".

(** The warnings of category "sales": of the notifications a sale creates,
    the high-value alerts. *)
Definition is_sales_warning (n : Notification.t) : bool :=
  String.eqb (Notification.type n) "warning" && String.eqb (Notification.category n) "sales".



(** Two lines of the cart name the same part. *)
Definition repeats_a_part (items : list Item.t) : Prop :=
  exists (i j : nat) (a b : Item.t),
    i <> j /\ items !! i = Some a /\ items !! j = Some b /\ Item.id a = Item.id b.


(** ** More of [app.py]: numbers, notifications, roles, escaping *)



(** [create_notification_for_all] (app.py 277-284). *)
Definition create_notification_for_all (title message type category : string)
    (action_url action_text : option string) : M (list Notification.t) :=
  users ← query staff;
  for_each (fun notifications user =>
      notification ← create_notification (User.id user) title message type category
                       action_url action_text;
      mret (notifications ++ [notification]))
    users [].

(** The filter [filter_by(user_id=user_id, is_read=False)]. *)
Definition unread_of (user_id : Z) (n : Notification.t) : bool :=
  (Notification.user_id n =? user_id) && negb (Notification.is_read n).

(** The filter [filter_by(user_id=user_id)]. *)
Definition owned_by (user_id : Z) (n : Notification.t) : bool :=
  Notification.user_id n =? user_id.

(** [notification.is_read = True].  (The [read_at] stamp set with it is a
    column nothing here reads; [Notification.t] does not keep it.) *)
Definition set_read (n : Notification.t) : Notification.t :=
  {| Notification.user_id := Notification.user_id n;
     Notification.title := Notification.title n;
     Notification.message := Notification.message n;
     Notification.type := Notification.type n;
     Notification.category := Notification.category n;
     Notification.is_read := true;
     Notification.action_url := Notification.action_url n;
     Notification.action_text := Notification.action_text n |}.

(** [get_unread_count] (app.py 305-307). *)
Definition get_unread_count (user_id : Z) : M Z :=
  query (fun db => Z.of_nat (length (List.filter (unread_of user_id) (notifications db)))).

(** [mark_all_notifications_read] (app.py 296-303): the rows the query
    returns are the objects the loop marks. *)
Definition mark_all_notifications_read (user_id : Z) : M Z :=
  unread ← query (fun db => List.filter (unread_of user_id) (notifications db));
  modify (fun db =>
    with_notifications
      (map (fun n => if unread_of user_id n then set_read n else n) (notifications db)) db);;
  commit;;
  mret (Z.of_nat (length unread)).

(** The JSON of [mark_all_notifications_as_read] (app.py 1391-1400). *)
Record MarkedAll := { marked_count : Z; unread_count : Z }.

Definition mark_all_notifications_as_read (current_user : User.t) : M MarkedAll :=
  count ← mark_all_notifications_read (User.id current_user);
  mret {| marked_count := count; unread_count := 0 |}.

(** [clear_all_notifications] (app.py 1417-1426); the value is the
    [cleared_count] of the response. *)
Definition clear_all_notifications (current_user : User.t) : M Z :=
  modify (fun db =>
    with_notifications
      (List.filter (fun n => negb (owned_by (User.id current_user) n)) (notifications db)) db);;
  commit;;
  query (fun db =>
    Z.of_nat (length (List.filter (owned_by (User.id current_user)) (notifications db)))).

(** [Part.query.filter(Part.stock_quantity < threshold).all()]; SQL leaves
    the order of the rows open, here it is that of [map_to_list]. *)
Definition parts_below (threshold : Z) (db : DB) : list Part.t :=
  List.filter (fun p => Part.stock_quantity p <? threshold) (map snd (map_to_list (parts db))).

(** The title and the message of app.py 326-329. *)
Definition low_stock_title (low_stock_parts : list Part.t) : string :=
  "Low Stock Alert - " +:+ pretty (Z.of_nat (length low_stock_parts)) +:+ " items".

Definition low_stock_message (low_stock_parts : list Part.t) : string :=
  let message :=
    "The following parts are running low on stock: "
      +:+ String.concat ", " (map Part.name (take 5 low_stock_parts)) in
  if (5 <? length low_stock_parts)%nat
  then message +:+ " and " +:+ pretty (Z.of_nat (length low_stock_parts) - 5) +:+ " more"
  else message.

(** [check_low_stock_alerts] (app.py 314-332). *)
Definition check_low_stock_alerts (py : Builtins) : M unit :=
  threshold_setting ← Settings_first "inventory" "low_stock_threshold";
  enabled_setting ← Settings_first "inventory" "low_stock_alert";
  match enabled_setting with
  | None => mret tt
  | Some enabled =>
      if negb (String.eqb (Settings.setting_value enabled) "true") then mret tt
      else
        threshold ←
          match threshold_setting with
          | Some s =>
              match py_int py (Settings.setting_value s) with
              | Some n => mret n
              | None => raise ValueError
              end
          | None => mret 5
          end;
        low_stock_parts ← query (parts_below threshold);
        match low_stock_parts with
        | [] => mret tt
        | _ :: _ =>
            let title := low_stock_title low_stock_parts in
            let message := low_stock_message low_stock_parts in
            create_notification_for_role "admin" title message "warning" "inventory"
              (Some "/inventory") (Some "View Inventory");;
            create_notification_for_role "manager" title message "warning" "inventory"
              (Some "/inventory") (Some "View Inventory");;
            mret tt
        end
  end.

(** The role methods of [User] (app.py 105-136). *)
Definition is_admin (u : User.t) : bool := String.eqb (User.role u) "admin".
Definition is_manager (u : User.t) : bool := String.eqb (User.role u) "manager".
Definition is_staff (u : User.t) : bool := String.eqb (User.role u) "staff".
Definition has_role (u : User.t) (roles : list string) : bool :=
  existsb (String.eqb (User.role u)) roles.
Definition can_manage_staff (u : User.t) : bool := is_admin u.
Definition can_manage_inventory (u : User.t) : bool := is_admin u || is_manager u.
Definition can_view_reports (u : User.t) : bool := is_admin u || is_manager u.
Definition can_manage_suppliers (u : User.t) : bool := is_admin u || is_manager u.

(** What a decorated view answers: the redirect of [login_required] for an
    anonymous visitor, the flash and the redirect to the dashboard, or the
    answer of the view. *)
Inductive Guarded (A : Type) :=
| ToLogin
| ToDashboard (flash : string)
| Served (answer : A).
Arguments ToLogin {A}.
Arguments ToDashboard {A} flash.
Arguments Served {A} answer.

(** The decorators of app.py 708-745, applied to the view [f]; the visitor
    is [None] when not authenticated. *)
Definition role_required {A : Type} (roles : list string) (f : A)
    (current_user : option User.t) : Guarded A :=
  match current_user with
  | None => ToLogin
  | Some u =>
      if negb (has_role u roles)
      then ToDashboard "You do not have permission to access this page."
      else Served f
  end.

Definition admin_required {A : Type} (f : A) (current_user : option User.t) : Guarded A :=
  match current_user with
  | None => ToLogin
  | Some u =>
      if negb (is_admin u) then ToDashboard "Admin access required." else Served f
  end.

Definition manager_required {A : Type} (f : A) (current_user : option User.t) : Guarded A :=
  match current_user with
  | None => ToLogin
  | Some u =>
      if negb (is_admin u || is_manager u)
      then ToDashboard "Manager access required."
      else Served f
  end.

(** [s.replace(c, r)] for a pattern of one character. *)
Fixpoint replace_char (c : ascii) (r : string) (s : string) : string :=
  match s with
  | EmptyString => EmptyString
  | String a t =>
      if Ascii.eqb a c then r +:+ replace_char c r t else String a (replace_char c r t)
  end.

Definition double_quote : ascii := ascii_of_nat 34.
Definition backslash : ascii := ascii_of_nat 92.
Definition line_feed : ascii := ascii_of_nat 10.
Definition carriage_return : ascii := ascii_of_nat 13.
Definition tab : ascii := ascii_of_nat 9.

(** [html.escape(s)] of the standard library, [quote=True]: the five
    replacements, [&] first. *)
Definition html_escape (s : string) : string :=
  replace_char "'" "&#x27;"
    (replace_char double_quote "&quot;"
       (replace_char ">" "&gt;"
          (replace_char "<" "&lt;"
             (replace_char "&" "&amp;" s)))).

(** [escapejs] (app.py 80-84), on the text [str(value)]. *)
Definition escapejs (value : string) : string :=
  replace_char tab (String backslash "t")
    (replace_char carriage_return (String backslash "r")
       (replace_char line_feed (String backslash "n")
          (replace_char double_quote (String backslash (String double_quote ""))
             (replace_char "'" (String backslash "'")
                (replace_char backslash (String backslash (String backslash ""))
                   (html_escape value)))))).

(** The character [c] occurs in [s]. *)
Fixpoint occurs (c : ascii) (s : string) : bool :=
  match s with
  | EmptyString => false
  | String a t => Ascii.eqb a c || occurs c t
  end.

(** The characters that end or break a quoted JavaScript string in a page. *)
Definition unsafe_in_script : list ascii :=
  ["<"%char; ">"%char; "'"%char; double_quote; line_feed; carriage_return; tab].

(** The characters [escapejs] rewrites. *)
Definition rewritten_by_escapejs : list ascii :=
  "&"%char :: backslash :: unsafe_in_script.

(** What [escapejs] writes for one character, as a table. *)
Definition escaped_char (a : ascii) : string :=
  if Ascii.eqb a "&" then "&amp;"
  else if Ascii.eqb a "<" then "&lt;"
  else if Ascii.eqb a ">" then "&gt;"
  else if Ascii.eqb a double_quote then "&quot;"
  else if Ascii.eqb a "'" then "&#x27;"
  else if Ascii.eqb a backslash then String backslash (String backslash "")
  else if Ascii.eqb a line_feed then String backslash "n"
  else if Ascii.eqb a carriage_return then String backslash "r"
  else if Ascii.eqb a tab then String backslash "t"
  else String a "".


(** The notifications of type "success": of the notifications a sale
    creates, the notice of completion. *)
Definition is_success (n : Notification.t) : bool :=
  String.eqb (Notification.type n) "success".

(** * Properties *)

(** ** Receipt numbers *)

Example receipt_2026 :
  generate_receipt_number {| year := 2026; month := 3; day := 9 |}
    0x3f2a9c01aabb4cdd8eef001122334455 = "RCP-20260309-3F2A9C01".
Proof. reflexivity. Qed.




(** ** The key constraints *)

Lemma insert_sale_Some (s : Sale.t) (db db' : DB) :
  insert_sale s db = Some db' <->
  (Sale.receipt_number s ∉ map Sale.receipt_number (sales db))
  /\ (Sale.staff_id s ∈ map User.id (staff db))
  /\ match Sale.customer_id s with Some c => c ∈ customers db | None => True end
  /\ db' = with_sales (sales db ++ [s]) db.
Proof.
  unfold insert_sale.
  case_bool_decide as H1; [split; [done | tauto] |].
  case_bool_decide as H2; simpl; [| split; [done | tauto]].
  destruct (Sale.customer_id s) as [c|].
  - case_bool_decide as H3; [| split; [done | tauto]].
    split; [intros [= <-]; done | intros (_ & _ & _ & ->); done].
  - split; [intros [= <-]; done | intros (_ & _ & _ & ->); done].
Qed.

Lemma insert_sale_detail_Some (d : SaleDetail.t) (db db' : DB) :
  insert_sale_detail d db = Some db' <->
  (SaleDetail.key d ∉ map SaleDetail.key (sale_details db))
  /\ (SaleDetail.sale_id d ∈ map Sale.id (sales db))
  /\ is_Some (parts db !! SaleDetail.part_id d)
  /\ db' = with_sale_details (sale_details db ++ [d]) db.
Proof.
  unfold insert_sale_detail.
  case_bool_decide as H1; [split; [done | tauto] |].
  case_bool_decide as H2; simpl; [| split; [done | tauto]].
  case_bool_decide as H3; simpl; [| split; [done | tauto]].
  split; [intros [= <-]; done | intros (_ & _ & _ & ->); done].
Qed.

Lemma with_sale_details_twice (l1 l2 : list SaleDetail.t) (db : DB) :
  with_sale_details l2 (with_sale_details l1 db) = with_sale_details l2 db.
Proof. reflexivity. Qed.

Lemma with_sale_details_same (db : DB) : with_sale_details (sale_details db) db = db.
Proof. by destruct db. Qed.

(** A flush goes through exactly when no pending row repeats a key, in the
    table or among the pending rows, and every foreign key resolves. *)
Lemma flush_details_Some (ds : list SaleDetail.t) (db db' : DB) :
  flush_details ds db = Some db' <->
  NoDup (map SaleDetail.key ds)
  /\ Forall (fun d =>
       (SaleDetail.key d ∉ map SaleDetail.key (sale_details db))
       /\ (SaleDetail.sale_id d ∈ map Sale.id (sales db))
       /\ is_Some (parts db !! SaleDetail.part_id d)) ds
  /\ db' = with_sale_details (sale_details db ++ ds) db.
Proof.
  revert db db'. induction ds as [|d ds IH]; intros db db'; simpl.
  - rewrite app_nil_r, with_sale_details_same. split.
    + intros [= <-]. split_and!; [constructor | constructor | done].
    + intros (_ & _ & ->). done.
  - destruct (insert_sale_detail d db) as [db1|] eqn:Hd.
    + apply insert_sale_detail_Some in Hd as (Hk & Hs & Hp & ->).
      rewrite IH. simpl. rewrite map_app. simpl.
      rewrite NoDup_cons, Forall_cons. rewrite <- app_assoc. simpl.
      split.
      * intros (Hnd & Hall & ->). split_and!; try done.
        -- intros Hin. rewrite Forall_forall in Hall.
           apply list_elem_of_fmap in Hin as (d' & Heq & Hin).
           destruct (Hall d' Hin) as (Hn & _). apply Hn.
           rewrite elem_of_app. right. rewrite Heq. apply list_elem_of_singleton. done.
        -- eapply Forall_impl; [exact Hall|]. simpl. intros d' (Hn & ? & ?).
           split_and!; try done. intros Hin. apply Hn. rewrite elem_of_app. by left.
      * intros ((Hnk & Hnd) & (_ & Hall) & ->). split_and!; try done.
        rewrite Forall_forall in Hall |- *. intros d' Hin.
        destruct (Hall d' Hin) as (Hn & ? & ?). split_and!; try done.
        rewrite elem_of_app. intros [?|Heq]; [done|].
        apply list_elem_of_singleton in Heq. apply Hnk. rewrite <- Heq.
        apply list_elem_of_fmap. eauto.
    + split; [done|]. intros (Hnd & Hall & _). exfalso.
      apply Forall_cons in Hall as ((Hk & Hs & Hp) & _).
      assert (is_Some (insert_sale_detail d db)) as [? Heq]; [|congruence].
      eexists. apply insert_sale_detail_Some. done.
Qed.

(** ** Staging the sale (app.py 2147-2194) *)

Lemma with_parts_same (db : DB) : with_parts (parts db) db = db.
Proof. by destruct db. Qed.

Lemma after_sale_stock (q : Z) (p : Part.t) :
  Part.stock_quantity (after_sale q p) = Z.max 0 (Part.stock_quantity p - q).
Proof.
  unfold after_sale. simpl. destruct (Z.ltb_spec (Part.stock_quantity p - q) 0); simpl; lia.
Qed.

Lemma after_sale_name (q : Z) (p : Part.t) : Part.name (after_sale q p) = Part.name p.
Proof. unfold after_sale. simpl. by destruct (_ <? _). Qed.

Lemma after_sale_price (q : Z) (p : Part.t) : Part.price (after_sale q p) = Part.price p.
Proof. unfold after_sale. simpl. by destruct (_ <? _). Qed.

Section Staging.
Context (py : Builtins) (env : Env) (req : Request.t).

(** The loop over the cart raises nothing and touches only the session. *)
Lemma for_each_sell_item (thr : Z) (items : list Item.t) (low : list Z) (w : World) :
  for_each (sell_item env req thr) items low w =
  (inr (staged thr items (parts (session w)) low).2,
   {| stored := stored w;
      session := with_parts (staged thr items (parts (session w)) low).1 (session w);
      pending := pending w ++ map (new_sale_detail env req) items;
      faults := faults w |}).
Proof.
  revert low w. induction items as [|item items IH]; intros low w.
  - destruct w as [st se pe fa]. simpl. by rewrite app_nil_r, with_parts_same.
  - cbn [for_each staged map]. unfold mbind, M_bind at 1.
    unfold sell_item at 1. unfold mbind, M_bind, add_sale_detail, query. cbn [session].
    destruct (parts (session w) !! Item.id item) as [p|] eqn:Hp.
    + fold (after_sale (Item.quantity item) p). unfold modify. cbn.
      fold (is_low thr (after_sale (Item.quantity item) p)).
      destruct (is_low thr (after_sale (Item.quantity item) p));
        unfold mret, M_ret; rewrite IH; cbn; by rewrite <- app_assoc.
    + unfold mret, M_ret. rewrite IH. cbn. by rewrite <- app_assoc.
Qed.

Lemma stage_sale_begin (db : DB) :
  stage_sale py env req (begin env db) =
  match insert_sale (new_sale env req) db with
  | None => (inl IntegrityError, begin env db)
  | Some db1 =>
      match low_stock_threshold py db with
      | None =>
          (inl ValueError,
           {| stored := db; session := db1; pending := [];
              faults := commit_results env |})
      | Some thr =>
          (inr (staged thr (Request.items req) (parts db) []).2,
           {| stored := db;
              session := with_parts (staged thr (Request.items req) (parts db) []).1 db1;
              pending := map (new_sale_detail env req) (Request.items req);
              faults := commit_results env |})
      end
  end.
Proof.
  unfold stage_sale, mbind, M_bind, add_and_flush_sale, begin. cbn [session].
  destruct (insert_sale (new_sale env req) db) as [db1|] eqn:Hs; [|done].
  apply insert_sale_Some in Hs as (_ & _ & _ & ->).
  unfold Settings_first, query, low_stock_threshold. cbn.
  destruct (find _ (settings db)) as [s|]; cbn.
  - destruct (py_int py (Settings.setting_value s)) as [thr|]; cbn; [|done].
    by rewrite for_each_sell_item.
  - by rewrite for_each_sell_item.
Qed.

(** Whatever staging does, nothing is committed and no commit is asked for. *)
Lemma stage_sale_stored (db : DB) (r : exn + list Z) (w : World) :
  stage_sale py env req (begin env db) = (r, w) ->
  stored w = db /\ faults w = commit_results env.
Proof.
  rewrite stage_sale_begin.
  destruct (insert_sale _ db); [destruct (low_stock_threshold py db)|];
    intros [= <- <-]; done.
Qed.

Lemma staged_is_Some (thr : Z) (items : list Item.t) (m : gmap Z Part.t)
    (low : list Z) (i : Z) :
  is_Some ((staged thr items m low).1 !! i) <-> is_Some (m !! i).
Proof.
  revert m low. induction items as [|item items IH]; intros m low; simpl; [done|].
  destruct (m !! Item.id item) as [p|] eqn:Hp; [|apply IH].
  rewrite IH. destruct (decide (Item.id item = i)) as [<-|Hne].
  - rewrite lookup_insert_eq, Hp. split; eauto.
  - by rewrite lookup_insert_ne.
Qed.

(** The flush of the commit accepts the staged lines exactly when they are
    insertable, and then leaves the rows [sold]. *)
Lemma flush_staged (thr : Z) (db db1 db2 : DB) :
  insert_sale (new_sale env req) db = Some db1 ->
  flush_details (map (new_sale_detail env req) (Request.items req))
    (with_parts (staged thr (Request.items req) (parts db) []).1 db1) = Some db2
  <-> lines_insertable env req db /\ db2 = sold env req thr db.
Proof.
  intros Hs. apply insert_sale_Some in Hs as (_ & _ & _ & ->).
  rewrite flush_details_Some. unfold lines_insertable, sold. cbn.
  rewrite !Forall_forall.
  assert (Hkeys : map SaleDetail.key (map (new_sale_detail env req) (Request.items req))
                  = map (fun i => (new_sale_id env, i)) (map Item.id (Request.items req))).
  { rewrite !map_map. done. }
  rewrite Hkeys.
  assert (Hnd : NoDup (map (fun i => (new_sale_id env, i)) (map Item.id (Request.items req)))
                <-> NoDup (map Item.id (Request.items req))).
  { split; [apply NoDup_fmap_1 | apply NoDup_fmap_2; intros ?? [=]; done]. }
  rewrite Hnd. split.
  - intros (? & Hall & ->). split_and!; try done.
    intros item Hin.
    destruct (Hall (new_sale_detail env req item)) as (? & _ & Hp).
    { apply list_elem_of_fmap. eauto. }
    cbn in Hp. apply staged_is_Some in Hp. done.
  - intros ((? & Hall) & ->). split_and!; try done.
    intros d Hin. apply list_elem_of_fmap in Hin as (item & -> & Hin).
    destruct (Hall item Hin) as (? & ?). cbn. split_and!; try done.
    + rewrite map_app, elem_of_app. right. cbn. apply list_elem_of_singleton. done.
    + by apply staged_is_Some.
Qed.

End Staging.

(** ** Committing notifications, one at a time *)

Lemma add_notifications_nil (db : DB) : add_notifications [] db = db.
Proof. unfold add_notifications. rewrite app_nil_r. by destruct db. Qed.

Lemma add_notifications_app (ns1 ns2 : list Notification.t) (db : DB) :
  add_notifications ns2 (add_notifications ns1 db) = add_notifications (ns1 ++ ns2) db.
Proof. unfold add_notifications. cbn. by rewrite app_assoc. Qed.

Lemma all_ok_tail (b : bool) (fs : list bool) : all_ok (b :: fs) -> all_ok fs.
Proof. unfold all_ok. by inversion 1. Qed.

Lemma follows_refl (w : World) : clean w -> follows [] w w.
Proof. intros Hc. split_and!; [done | by rewrite add_notifications_nil | done]. Qed.

Lemma follows_trans (ns1 ns2 : list Notification.t) (w w1 w2 : World) :
  follows ns1 w w1 -> follows ns2 w1 w2 -> follows (ns1 ++ ns2) w w2.
Proof.
  intros (_ & H1 & Hf1) (Hc & H2 & Hf2). split_and!; [done | | auto].
  by rewrite H2, H1, add_notifications_app.
Qed.

Lemma runs_ret {A : Type} (a : A) (w : World) : clean w -> runs (mret a) w [].
Proof. intros Hc. unfold runs, mret, M_ret. by apply follows_refl. Qed.

Lemma runs_bind {A B : Type} (m : M A) (f : A -> M B) (w : World)
    (ns1 ns2 : list Notification.t) :
  runs m w ns1 ->
  (forall a w1, m w = (inr a, w1) -> runs (f a) w1 ns2) ->
  runs (m ≫= f) w (ns1 ++ ns2).
Proof.
  unfold runs at 1 3, mbind, M_bind. intros Hm Hf.
  destruct (m w) as [[e|a] w1].
  - destruct Hm as ([k Hk] & Hno). split; [|done].
    destruct (decide (k <= length ns1)%nat) as [Hle|Hgt].
    + exists k. by rewrite take_app_le.
    + exists (length ns1). rewrite take_app_le, firstn_all by done.
      rewrite take_ge in Hk by lia. done.
  - specialize (Hf a w1 eq_refl). unfold runs in Hf.
    destruct (f a w1) as [[e|b] w2].
    + destruct Hf as ([k Hk] & Hno). split.
      * exists (length ns1 + k)%nat. rewrite take_app_add'  by done.
        by eapply follows_trans.
      * intros Hok. apply Hno. by apply Hm.
    + by eapply follows_trans.
Qed.

Lemma runs_query {A B : Type} (q : DB -> A) (f : A -> M B) (w : World)
    (ns : list Notification.t) :
  runs (f (q (session w))) w ns -> runs (query q ≫= f) w ns.
Proof. done. Qed.

Lemma runs_create_notification (user_id : Z) (title message type category : string)
    (action_url action_text : option string) (w : World) :
  clean w ->
  runs (create_notification user_id title message type category action_url action_text)
    w [new_notification user_id title message type category action_url action_text].
Proof.
  destruct w as [st se pe fa]. intros [Hs Hp]. cbn in Hs, Hp. subst se pe.
  unfold runs, create_notification, mbind, M_bind, modify, commit, follows, clean.
  cbn. destruct fa as [|[] fs]; cbn.
  - done.
  - split_and!; try done. apply all_ok_tail.
  - split.
    + exists 0%nat. cbn. split_and!; try done; [by rewrite add_notifications_nil | apply all_ok_tail].
    + unfold all_ok. by inversion 1.
Qed.

Lemma runs_inr {A : Type} (m : M A) (w w1 : World) (ns : list Notification.t) (a : A) :
  runs m w ns -> m w = (inr a, w1) -> follows ns w w1.
Proof. unfold runs. intros H Hm. by rewrite Hm in H. Qed.

Lemma runs_clean {A : Type} (m : M A) (w w1 : World) (ns : list Notification.t) (a : A) :
  runs m w ns -> m w = (inr a, w1) -> clean w1.
Proof. intros H Hm. by destruct (runs_inr _ _ _ _ _ H Hm). Qed.

Lemma runs_discard {A : Type} (m : M A) (w : World) (ns : list Notification.t) :
  runs m w ns -> runs (m;; mret tt) w ns.
Proof.
  intros H. rewrite <- (app_nil_r ns). apply runs_bind; [done|].
  intros a w1 Hm. apply runs_ret. by eapply runs_clean.
Qed.

Lemma runs_notify_each (title message type category : string)
    (action_url action_text : option string) (users : list User.t)
    (acc : list Notification.t) (w : World) :
  clean w ->
  runs (for_each (fun notifications user =>
            notification ← create_notification (User.id user) title message type
                             category action_url action_text;
            mret (notifications ++ [notification]))
          users acc) w
    (map (fun u => new_notification (User.id u) title message type category
                     action_url action_text) users).
Proof.
  revert acc w. induction users as [|u users IH]; intros acc w Hc; cbn [for_each map].
  - by apply runs_ret.
  - assert (Hone : runs (notification ← create_notification (User.id u) title message
                           type category action_url action_text;
                         mret (acc ++ [notification])) w
                     [new_notification (User.id u) title message type category
                        action_url action_text]).
    { apply (runs_bind _ _ _ [_] []); [by apply runs_create_notification|].
      intros n w1 Hn. apply runs_ret.
      eapply runs_clean; [|exact Hn]. by apply runs_create_notification. }
    apply (runs_bind _ _ _ [_] _); [exact Hone|].
    intros acc' w1 H1. apply IH. by eapply runs_clean.
Qed.

(** [create_notification_for_role] reaches every user of the role, once. *)
Lemma runs_create_notification_for_role (role title message type category : string)
    (action_url action_text : option string) (w : World) :
  clean w ->
  runs (create_notification_for_role role title message type category
          action_url action_text) w
    (fan_out role title message type category action_url action_text (stored w)).
Proof.
  intros Hc. unfold create_notification_for_role. apply runs_query.
  unfold fan_out. rewrite (proj1 Hc). by apply runs_notify_each.
Qed.

(** ** The triggers that follow the commit (app.py 2198-2287) *)

Section Triggers.
Context (py : Builtins) (env : Env) (req : Request.t).

Lemma runs_critical_stock_alerts (low : list Z) (w : World) :
  clean w ->
  (forall i, i ∈ low -> is_Some (parts (stored w) !! i)) ->
  runs (critical_stock_alerts low) w (critical_alerts_of low (stored w)).
Proof.
  unfold critical_stock_alerts.
  set (body := fun (_ : unit) (part_id : Z) => _).
  generalize tt. revert w.
  induction low as [|i low IH]; intros w u Hc Hlow; cbn [for_each critical_alerts_of flat_map].
  - by apply runs_ret.
  - destruct (Hlow i) as [p Hp]; [by left|].
    assert (Hone : runs (body u i) w
                     (if Part.stock_quantity p <=? 2 then critical_alert p (stored w) else [])).
    { unfold body. apply runs_query. rewrite (proj1 Hc), Hp.
      destruct (Part.stock_quantity p <=? 2).
      - apply runs_discard. by apply runs_create_notification_for_role.
      - by apply runs_ret. }
    rewrite Hp. apply runs_bind; [exact Hone|].
    intros u' w1 H1. destruct (runs_inr _ _ _ _ _ Hone H1) as (Hc1 & Hst & _).
    replace (flat_map _ low) with (critical_alerts_of low (stored w1))
      by (rewrite Hst; reflexivity).
    apply IH; [done|]. intros j Hj. rewrite Hst. cbn. apply Hlow. by right.
Qed.

Lemma runs_sale_completed (w : World) :
  clean w -> runs (sale_completed py env req) w [completion_notice py env req].
Proof. intros Hc. apply runs_discard. by apply runs_create_notification. Qed.

Lemma runs_high_value_alerts (w : World) :
  clean w ->
  runs (high_value_alerts py env req) w (high_value_notices py env req (stored w)).
Proof.
  intros Hc. unfold high_value_alerts, mbind at 1, M_bind at 1.
  assert (Hthr : try_except
            (high_value_threshold_setting ← Settings_first "sales" "high_value_sale_threshold";
             match high_value_threshold_setting with
             | Some s =>
                 match py_float py (Settings.setting_value s) with
                 | Some x => mret x
                 | None => raise ValueError
                 end
             | None => mret (inject_Z 5000)
             end)
            (fun _ => mret (inject_Z 5000)) w
          = (inr (high_value_threshold py (stored w)), w)).
  { unfold try_except, mbind, M_bind, Settings_first, query, high_value_threshold.
    rewrite (proj1 Hc). destruct (find _ (settings (stored w))) as [s|]; [|done].
    by destruct (py_float py (Settings.setting_value s)). }
  unfold runs. rewrite Hthr. unfold high_value_notices.
  destruct (Qle_bool _ _).
  - apply (runs_bind _ _ _ _ _).
    + by apply runs_create_notification_for_role.
    + intros ns1 w1 H1.
      pose proof (runs_inr _ _ _ _ _
        (runs_create_notification_for_role _ _ _ _ _ _ _ _ Hc) H1) as (Hc1 & Hst & _).
      apply runs_discard.
      replace (fan_out "admin" _ _ _ _ _ _ (stored w))
        with (fan_out "admin" "High Value Sale" (high_value_message py env req)
                "warning" "sales" (Some "/reports") (Some "View Reports") (stored w1))
        by (rewrite Hst; reflexivity).
      by apply runs_create_notification_for_role.
  - by apply runs_ret.
Qed.

(** The milestone trigger swallows a refusal; a prefix of its notices is kept. *)
Lemma sales_milestone_spec (w : World) :
  clean w ->
  exists k w', sales_milestone w = (inr tt, w')
    /\ follows (take k (milestone_notices (stored w))) w w'.
Proof.
  intros Hc. unfold sales_milestone, try_except.
  match goal with
  | |- context [match ?m w with _ => _ end] =>
      assert (Hr : runs m w (milestone_notices (stored w)));
        [| unfold runs in Hr; destruct (m w) as [[e|u] w1]]
  end.
  - apply runs_query. unfold milestone_notices. rewrite (proj1 Hc).
    destruct (_ && _); [|by apply runs_ret].
    cbn zeta. apply (runs_bind _ _ _ _ _).
    + by apply runs_create_notification_for_role.
    + intros ns1 w1 H1.
      pose proof (runs_inr _ _ _ _ _
        (runs_create_notification_for_role _ _ _ _ _ _ _ _ Hc) H1) as (Hc1 & Hst & _).
      apply runs_discard.
      replace (fan_out "admin" _ _ _ _ _ _ (stored w))
        with (fan_out "admin" "Sales Milestone Reached"
                (pretty (Z.of_nat (length (sales (stored w))))
                   +:+ " total sales have been completed.")
                "info" "sales" (Some "/reports") (Some "View Reports") (stored w1))
        by (rewrite Hst; reflexivity).
      by apply runs_create_notification_for_role.
  - destruct Hr as ([k Hk] & _). by exists k, w1.
  - destruct u. exists (length (milestone_notices (stored w))), w1. by rewrite firstn_all.
Qed.

Lemma log_sale_spec (w : World) :
  clean w ->
  match log_sale env req w with
  | (inr _, w') =>
      clean w'
      /\ stored w' = with_audit_logs (audit_logs (stored w) ++ [sale_audit env req]) (stored w)
  | (inl _, w') => stored w' = stored w /\ ~ all_ok (faults w)
  end.
Proof.
  destruct w as [st se pe fa]. intros [Hs Hp]. cbn in Hs, Hp. subst se pe.
  unfold log_sale, log_audit, mbind, M_bind, modify, commit, clean, sale_audit.
  cbn. 
  assert (Hu : (if User.id (current_user env) =? 0
                then Some (User.id (current_user env))
                else Some (User.id (current_user env))) = Some (User.id (current_user env)))
    by (by destruct (_ =? _)).
  rewrite Hu.
  destruct fa as [|[] fs]; cbn; try done.
  split; [done|]. unfold all_ok. by inversion 1.
Qed.

End Triggers.

(** ** The request as a whole *)

Section Outcome.
Context (py : Builtins) (env : Env) (req : Request.t).

Lemma critical_alerts_of_frame (low : list Z) (ns : list Notification.t) (db : DB) :
  critical_alerts_of low (add_notifications ns db) = critical_alerts_of low db.
Proof. reflexivity. Qed.

Lemma high_value_notices_frame (ns : list Notification.t) (db : DB) :
  high_value_notices py env req (add_notifications ns db) = high_value_notices py env req db.
Proof. reflexivity. Qed.

Lemma milestone_notices_frame (ns : list Notification.t) (db : DB) :
  milestone_notices (add_notifications ns db) = milestone_notices db.
Proof. reflexivity. Qed.

(** What the code after the commit leaves, whether it answers or raises. *)
Lemma after_commit_cases (low : list Z) (w : World) :
  clean w ->
  (forall i, i ∈ low -> is_Some (parts (stored w) !! i)) ->
  match after_commit py env req low w with
  | (inr r, w') =>
      r = SaleProcessed (new_sale_id env) (generate_receipt_number (utcnow env) (uuid4 env))
      /\ exists k,
           stored w' =
           with_audit_logs (audit_logs (stored w) ++ [sale_audit env req])
             (add_notifications
                (critical_alerts_of low (stored w)
                 ++ [completion_notice py env req]
                 ++ high_value_notices py env req (stored w)
                 ++ take k (milestone_notices (stored w)))
                (stored w))
  | (inl _, w') =>
      ~ all_ok (faults w) /\ exists ns, stored w' = add_notifications ns (stored w)
  end.
Proof.
  intros Hc Hlow. unfold after_commit, mbind, M_bind.
  pose proof (runs_critical_stock_alerts low w Hc Hlow) as R1. unfold runs in R1.
  destruct (critical_stock_alerts low w) as [[e|u1] w1].
  { destruct R1 as ([k (_ & Hk & _)] & Hno). eauto. }
  destruct R1 as (Hc1 & Hs1 & Hf1).
  pose proof (runs_sale_completed py env req w1 Hc1) as R2. unfold runs in R2.
  destruct (sale_completed py env req w1) as [[e|u2] w2].
  { destruct R2 as ([k (_ & Hk & _)] & Hno). split; [tauto|].
    eexists (_ ++ _). by rewrite Hk, Hs1, add_notifications_app. }
  destruct R2 as (Hc2 & Hs2 & Hf2).
  rewrite Hs1, add_notifications_app in Hs2.
  pose proof (runs_high_value_alerts py env req w2 Hc2) as R3. unfold runs in R3.
  rewrite Hs2, high_value_notices_frame in R3.
  destruct (high_value_alerts py env req w2) as [[e|u3] w3].
  { destruct R3 as ([k (_ & Hk & _)] & Hno). split; [tauto|].
    eexists (_ ++ _). by rewrite Hk, Hs2, add_notifications_app. }
  destruct R3 as (Hc3 & Hs3 & Hf3).
  rewrite Hs2, add_notifications_app in Hs3.
  destruct (sales_milestone_spec w3 Hc3) as (k & w4 & -> & Hc4 & Hs4 & Hf4).
  rewrite Hs3, milestone_notices_frame, add_notifications_app in Hs4.
  pose proof (log_sale_spec env req w4 Hc4) as R5.
  destruct (log_sale env req w4) as [[e|u5] w5].
  { destruct R5 as (Hk & Hno). split; [tauto|]. eexists. rewrite Hk. exact Hs4. }
  destruct R5 as (Hc5 & Hs5). unfold mret, M_ret. split; [done|].
  exists k. rewrite Hs5, Hs4. cbn. by rewrite <- !app_assoc.
Qed.

(** The handler, phase by phase: until the commit has gone through the
    stored rows are those the request found. *)
Lemma post_api_sales_phases (db : DB) :
  post_api_sales py env req db =
  match stage_sale py env req (begin env db) with
  | (inl e, _) => (SaleFailed e, db)
  | (inr low, w1) =>
      match commit w1 with
      | (inl e, _) => (SaleFailed e, db)
      | (inr _, w2) =>
          match after_commit py env req low w2 with
          | (inr r, w3) => (r, stored w3)
          | (inl e, w3) => (SaleFailed e, stored w3)
          end
      end
  end.
Proof.
  unfold post_api_sales, process_sale, try_except, mbind, M_bind.
  destruct (stage_sale py env req (begin env db)) as [[e|low] w1] eqn:Hst;
    apply stage_sale_stored in Hst as [Hs Hf].
  - cbn. by rewrite Hs.
  - assert (Hcm : forall e w2, commit w1 = (inl e, w2) -> stored w2 = db).
    { unfold commit. intros e w2.
      destruct (flush_details _ _); [destruct (faults w1) as [|[] fs]|];
        intros [= <- <-]; done. }
    destruct (commit w1) as [[e|u] w2].
    + cbn. by rewrite (Hcm e w2).
    + destruct (after_commit py env req low w2) as [[e|r] w3]; done.
Qed.

Lemma staged_lookup_notin (thr : Z) (items : list Item.t) (m : gmap Z Part.t)
    (low : list Z) (i : Z) :
  i ∉ map Item.id items -> (staged thr items m low).1 !! i = m !! i.
Proof.
  revert m low. induction items as [|item items IH]; intros m low Hi; simpl; [done|].
  cbn in Hi. apply not_elem_of_cons in Hi as [Hne Hi].
  destruct (m !! Item.id item); rewrite IH by done; [|done].
  by rewrite lookup_insert_ne.
Qed.

(** With one line per part, a line's part ends as that line leaves it. *)
Lemma staged_lookup_in (thr : Z) (items : list Item.t) (m : gmap Z Part.t)
    (low : list Z) (item : Item.t) (p : Part.t) :
  NoDup (map Item.id items) -> item ∈ items -> m !! Item.id item = Some p ->
  (staged thr items m low).1 !! Item.id item = Some (after_sale (Item.quantity item) p).
Proof.
  revert m low. induction items as [|x items IH]; intros m low Hnd Hin Hp.
  - by apply elem_of_nil in Hin.
  - cbn in Hnd. apply NoDup_cons in Hnd as [Hx Hnd]. simpl.
    apply elem_of_cons in Hin as [<-|Hin].
    + rewrite Hp, staged_lookup_notin by done. by rewrite lookup_insert_eq.
    + assert (Item.id x <> Item.id item).
      { intros Heq. apply Hx. rewrite Heq. apply list_elem_of_fmap. eauto. }
      destruct (m !! Item.id x); apply IH; try done. by rewrite lookup_insert_ne.
Qed.

Lemma staged_low (thr : Z) (items : list Item.t) (m : gmap Z Part.t) (low : list Z) :
  NoDup (map Item.id items) ->
  Forall (fun item => is_Some (m !! Item.id item)) items ->
  (staged thr items m low).2 =
  low ++ map Item.id
           (List.filter (fun item =>
                match (staged thr items m low).1 !! Item.id item with
                | Some p => is_low thr p
                | None => false
                end) items).
Proof.
  revert m low. induction items as [|x items IH]; intros m low Hnd Hall.
  - simpl. by rewrite app_nil_r.
  - cbn in Hnd. apply NoDup_cons in Hnd as [Hx Hnd].
    apply Forall_cons in Hall as [[p Hp] Hall].
    cbn [staged List.filter]. rewrite Hp. cbn zeta.
    rewrite staged_lookup_notin, lookup_insert_eq by done.
    rewrite IH; [|done|].
    + destruct (is_low thr (after_sale (Item.quantity x) p)); [|done].
      by rewrite <- app_assoc.
    + eapply Forall_impl; [exact Hall|]. cbn. intros y [q Hq].
      destruct (decide (Item.id x = Item.id y)) as [->|Hne].
      * rewrite lookup_insert_eq. eauto.
      * rewrite lookup_insert_ne by done. eauto.
Qed.

Lemma flat_map_filter_map {A B C : Type} (g : B -> list C) (h : A -> B)
    (c : A -> bool) (l : list A) :
  flat_map g (map h (List.filter c l)) = flat_map (fun x => if c x then g (h x) else []) l.
Proof.
  induction l as [|x l IH]; simpl; [done|].
  destruct (c x); simpl; by rewrite IH.
Qed.

Lemma flat_map_Forall_ext {A B : Type} (f g : A -> list B) (l : list A) :
  Forall (fun x => f x = g x) l -> flat_map f l = flat_map g l.
Proof. induction 1 as [|x l Hx _ IH]; simpl; [done|]. by rewrite Hx, IH. Qed.

(** The alerts the loop over [low_stock_items] raises are those of the cart
    lines that leave at most 2 in stock, below the threshold. *)
Lemma critical_alerts_staged (thr : Z) (db : DB) :
  lines_insertable env req db ->
  critical_alerts_of (staged thr (Request.items req) (parts db) []).2 (sold env req thr db)
  = critical_alerts req thr (sold env req thr db).
Proof.
  intros [Hnd Hall]. unfold critical_alerts_of, critical_alerts.
  rewrite staged_low; [|done|].
  2: { eapply Forall_impl; [exact Hall|]. cbn. tauto. }
  cbn [app]. rewrite flat_map_filter_map. apply flat_map_Forall_ext.
  rewrite Forall_forall in Hall |- *. intros item Hin.
  destruct (Hall item Hin) as [[p Hp] _]. cbn [parts sold with_sale_details with_parts].
  rewrite (staged_lookup_in thr _ _ [] item p Hnd Hin Hp).
  unfold is_low. rewrite after_sale_stock.
  assert (H0 : (0 <=? Z.max 0 (Part.stock_quantity p - Item.quantity item)) = true)
    by (apply Z.leb_le; lia).
  rewrite H0, andb_true_r.
  destruct (_ <? thr), (_ <=? 2); done.
Qed.

Lemma staged_low_loaded (thr : Z) (db : DB) (i : Z) :
  lines_insertable env req db ->
  i ∈ (staged thr (Request.items req) (parts db) []).2 ->
  is_Some (parts (sold env req thr db) !! i).
Proof.
  intros [Hnd Hall] Hi. rewrite staged_low in Hi; [|done|].
  2: { eapply Forall_impl; [exact Hall|]. cbn. tauto. }
  cbn [app] in Hi. apply list_elem_of_fmap in Hi as (item & -> & Hin).
  apply list_elem_of_In, filter_In in Hin as [Hin _]. apply list_elem_of_In in Hin.
  rewrite Forall_forall in Hall. destruct (Hall item Hin) as [Hp _].
  cbn. by apply staged_is_Some.
Qed.

(** The two outcomes of a request.  A sale that is answered was insertable,
    and its rows, its notifications and its audit entry are the ones below; a
    sale that is refused met a constraint, a threshold that is no integer, or
    a commit the storage refused. *)
Lemma post_api_sales_cases (db : DB) :
  match post_api_sales py env req db with
  | (SaleProcessed sid rcp, db') =>
      sid = new_sale_id env
      /\ rcp = generate_receipt_number (utcnow env) (uuid4 env)
      /\ sale_insertable env req db
      /\ lines_insertable env req db
      /\ exists thr k,
           low_stock_threshold py db = Some thr
           /\ db' =
              with_audit_logs (audit_logs db ++ [sale_audit env req])
                (add_notifications
                   (critical_alerts req thr (sold env req thr db)
                    ++ [completion_notice py env req]
                    ++ high_value_notices py env req db
                    ++ take k (milestone_notices (sold env req thr db)))
                   (sold env req thr db))
  | (SaleFailed _, _) =>
      ~ sale_insertable env req db
      \/ low_stock_threshold py db = None
      \/ ~ lines_insertable env req db
      \/ ~ all_ok (commit_results env)
  end.
Proof.
  rewrite post_api_sales_phases, stage_sale_begin.
  destruct (insert_sale (new_sale env req) db) as [db1|] eqn:Hs.
  2: { left. intros (? & ? & ?).
       assert (is_Some (insert_sale (new_sale env req) db)) as [? Heq]; [|congruence].
       eexists. apply insert_sale_Some. done. }
  assert (Hsale : sale_insertable env req db).
  { apply insert_sale_Some in Hs as (? & ? & ? & _). done. }
  destruct (low_stock_threshold py db) as [thr|]; [|tauto].
  unfold commit. cbn [pending session faults stored].
  destruct (flush_details _ _) as [db2|] eqn:Hfl.
  2: { right; right; left. intros Hl.
       assert (Some (sold env req thr db) = None); [|done].
       rewrite <- Hfl. symmetry. by apply (flush_staged _ _ thr db db1). }
  apply (flush_staged _ _ thr db db1) in Hfl as [Hl ->]; [|done].
  assert (Hlow : forall i, i ∈ (staged thr (Request.items req) (parts db) []).2 ->
                   is_Some (parts (sold env req thr db) !! i))
    by (intros i; by apply staged_low_loaded).
  destruct (commit_results env) as [|[] fs] eqn:Hcr.
  3: { right; right; right. unfold all_ok. by inversion 1. }
  all: match goal with
       | |- context [after_commit py env req ?low ?w] =>
           pose proof (after_commit_cases low w (conj eq_refl eq_refl) Hlow) as Hac;
             destruct (after_commit py env req low w) as [[e|r] w3]
       end.
  all: cbn [stored faults] in Hac.
  - destruct Hac as [Hno _]. exfalso. apply Hno. constructor.
  - destruct Hac as [-> [k Hk]]. split_and!; try done. exists thr, k.
    split; [done|]. by rewrite Hk, critical_alerts_staged.
  - destruct Hac as [Hno _]. right; right; right. intros Hok. apply Hno. by apply all_ok_tail in Hok.
  - destruct Hac as [-> [k Hk]]. split_and!; try done. exists thr, k.
    split; [done|]. by rewrite Hk, critical_alerts_staged.
Qed.

End Outcome.

Section Verdicts.
Context (py : Builtins) (env : Env) (req : Request.t).


(** Lines the constraints refuse make the commit raise, and the request
    leaves the stored rows as it found them. *)
Lemma lines_refused (db : DB) :
  ~ lines_insertable env req db ->
  (exists e, post_api_sales py env req db = (SaleFailed e, db))
  /\ (forall low w1, stage_sale py env req (begin env db) = (inr low, w1) ->
        exists w2, commit w1 = (inl IntegrityError, w2)).
Proof.
  intros Hno. rewrite post_api_sales_phases, stage_sale_begin.
  destruct (insert_sale (new_sale env req) db) as [db1|] eqn:Hs; [|split; [eauto | done]].
  destruct (low_stock_threshold py db) as [thr|]; [|split; [eauto | done]].
  assert (Hc : exists w2,
            commit {| stored := db;
                      session := with_parts (staged thr (Request.items req) (parts db) []).1 db1;
                      pending := map (new_sale_detail env req) (Request.items req);
                      faults := commit_results env |} = (inl IntegrityError, w2)).
  { unfold commit. cbn [pending session].
    destruct (flush_details _ _) as [db2|] eqn:Hfl; [|eauto].
    apply (flush_staged env req thr db db1) in Hfl as [? _]; done. }
  destruct Hc as [w2 Hc]. split.
  - rewrite Hc. eauto.
  - intros low w1 [= <- <-]. eauto.
Qed.


Lemma repeats_a_part_NoDup (items : list Item.t) :
  repeats_a_part items -> ~ NoDup (map Item.id items).
Proof.
  intros (i & j & a & b & Hij & Ha & Hb & Hab) Hnd. apply Hij.
  eapply NoDup_lookup; [exact Hnd | |].
  - rewrite list_lookup_fmap, Ha. reflexivity.
  - rewrite list_lookup_fmap, Hb. cbn. by rewrite Hab.
Qed.

Lemma created_app (db : DB) (ns : list Notification.t) (db' : DB) :
  notifications db' = notifications db ++ ns -> created db db' = ns.
Proof. unfold created. intros ->. by rewrite drop_app_length. Qed.

Lemma filter_none {A : Type} (f : A -> bool) (l : list A) :
  Forall (fun x => f x = false) l -> List.filter f l = [].
Proof. induction 1 as [|x l Hx _ IH]; simpl; [done|]. by rewrite Hx. Qed.

Lemma filter_all {A : Type} (f : A -> bool) (l : list A) :
  Forall (fun x => f x = true) l -> List.filter f l = l.
Proof. induction 1 as [|x l Hx _ IH]; simpl; [done|]. by rewrite Hx, IH. Qed.

Lemma fan_out_Forall (P : Notification.t -> Prop) (role title message type category : string)
    (action_url action_text : option string) (db : DB) :
  (forall u, P (new_notification u title message type category action_url action_text)) ->
  Forall P (fan_out role title message type category action_url action_text db).
Proof. intros HP. unfold fan_out. apply Forall_fmap, Forall_true. intros u. apply HP. Qed.

Lemma critical_alerts_Forall (P : Notification.t -> Prop) (thr : Z) (db : DB) :
  (forall n, Notification.category n = "inventory" -> P n) ->
  Forall P (critical_alerts req thr db).
Proof.
  intros HP. unfold critical_alerts. apply Forall_flat_map, Forall_true. intros item.
  destruct (parts db !! Item.id item) as [p|]; [|constructor].
  destruct (_ && _); [|constructor].
  apply fan_out_Forall. intros u. by apply HP.
Qed.

Lemma high_value_notices_Forall (P : Notification.t -> Prop) (db : DB) :
  (forall n, Notification.type n = "warning" -> Notification.category n = "sales" -> P n) ->
  Forall P (high_value_notices py env req db).
Proof.
  intros HP. unfold high_value_notices. destruct (Qle_bool _ _); [|constructor].
  apply Forall_app; split; apply fan_out_Forall; intros u; by apply HP.
Qed.

Lemma milestone_notices_Forall (P : Notification.t -> Prop) (db : DB) :
  (forall n, Notification.type n = "info" -> Notification.category n = "sales" -> P n) ->
  Forall P (milestone_notices db).
Proof.
  intros HP. unfold milestone_notices. destruct (_ && _); [|constructor].
  apply Forall_app; split; apply fan_out_Forall; intros u; by apply HP.
Qed.

End Verdicts.

(** * The claims *)

(** Scenario A of the specification: two of five sold for 200; one [Sale],
    one line, the stock at 3 and one notice, to the cashier. *)
Example scenario_A :
  let out := post_api_sales Sample.py (Sample.env [])
               (Sample.request 200 [Sample.item 1 2 100]) (Sample.shop 5 9 []) in
  out.1 = SaleProcessed 1 "RCP-20260309-3F2A9C01"
  /\ Part.stock_quantity <$> parts out.2 !! 1 = Some 3
  /\ map Sale.total_amount (sales out.2) = [inject_Z 200]
  /\ map SaleDetail.key (sale_details out.2) = [(1, 1)]
  /\ map (fun n => (Notification.user_id n, Notification.title n)) (notifications out.2)
     = [(1, "Sale Completed")].
Proof. vm_compute. done. Qed.

(** C1. After a processed sale, the part of every cart line holds
    [max(0, previous stock - quantity sold)]; in particular its stock is not
    negative.  (No condition on the cart is needed: a processed sale has one
    line per part, all of them existing.) *)
Theorem sale_stock_clamped (py : Builtins) (env : Env) (req : Request.t)
    (db db' : DB) (sid : Z) (rcp : string) (item : Item.t) :
  post_api_sales py env req db = (SaleProcessed sid rcp, db') ->
  item ∈ Request.items req ->
  exists p p',
    parts db !! Item.id item = Some p
    /\ parts db' !! Item.id item = Some p'
    /\ Part.stock_quantity p' = Z.max 0 (Part.stock_quantity p - Item.quantity item)
    /\ 0 <= Part.stock_quantity p'.
Proof.
  intros Hpost Hin.
  pose proof (post_api_sales_cases py env req db) as Hc. rewrite Hpost in Hc.
  destruct Hc as (_ & _ & _ & [Hnd Hall] & thr & k & _ & ->).
  rewrite Forall_forall in Hall. destruct (Hall item Hin) as [[p Hp] _].
  exists p, (after_sale (Item.quantity item) p). split_and!.
  - done.
  - cbn. by apply staged_lookup_in.
  - apply after_sale_stock.
  - rewrite after_sale_stock. lia.
Qed.

(** Scenario B of the specification: one part in stock, five sold. *)
Lemma sale_stock_clamped_witness :
  exists p p',
    parts (Sample.shop 1 9 []) !! 1 = Some p
    /\ parts (post_api_sales Sample.py (Sample.env [])
                (Sample.request 50 [Sample.item 1 5 10]) (Sample.shop 1 9 [])).2 !! 1 = Some p'
    /\ Part.stock_quantity p' = Z.max 0 (Part.stock_quantity p - 5)
    /\ 0 <= Part.stock_quantity p'.
Proof.
  apply (sale_stock_clamped Sample.py (Sample.env [])
           (Sample.request 50 [Sample.item 1 5 10]) (Sample.shop 1 9 []) _
           1 "RCP-20260309-3F2A9C01" (Sample.item 1 5 10)).
  - vm_compute. reflexivity.
  - apply list_elem_of_here.
Defined.

(** C2. When the commit of the sale raises, whatever the reason, the caller
    gets the failure response with status 500 and the stored rows are those
    the request found: no [Sale], no [SaleDetail], no stock change. *)
Theorem failed_commit_leaves_nothing (py : Builtins) (env : Env) (req : Request.t)
    (db : DB) (low : list Z) (w1 w2 : World) (e : exn) :
  stage_sale py env req (begin env db) = (inr low, w1) ->
  commit w1 = (inl e, w2) ->
  post_api_sales py env req db = (SaleFailed e, db)
  /\ status_code (SaleFailed e) = 500.
Proof.
  intros Hst Hc. split; [|done].
  by rewrite post_api_sales_phases, Hst, Hc.
Qed.

Lemma failed_commit_leaves_nothing_witness :
  post_api_sales Sample.py (Sample.env [false])
    (Sample.request 200 [Sample.item 1 2 100]) (Sample.shop 5 9 [])
  = (SaleFailed OperationalError, Sample.shop 5 9 [])
  /\ status_code (SaleFailed OperationalError) = 500.
Proof.
  eapply (failed_commit_leaves_nothing Sample.py (Sample.env [false])
            (Sample.request 200 [Sample.item 1 2 100]) (Sample.shop 5 9 [])).
  - vm_compute. reflexivity.
  - vm_compute. reflexivity.
Defined.




(** C4, at a failing run: the sale commits, then the storage refuses the
    commit of the "Sale Completed" notification.  The exception leaves
    [create_notification], nothing but the outer [except] catches it: the
    caller is answered 500 although the sale is stored, and neither the
    high-value alerts (the total is 6000) nor the audit entry are written. *)
Lemma completion_failure_reaches_caller :
  let out := post_api_sales Sample.py (Sample.env [true; false])
               (Sample.request 6000 [Sample.item 1 2 100]) (Sample.shop 9 9 []) in
  out.1 = SaleFailed OperationalError
  /\ status_code out.1 = 500
  /\ map Sale.id (sales out.2) = [1]
  /\ Part.stock_quantity <$> parts out.2 !! 1 = Some 7
  /\ notifications out.2 = []
  /\ audit_logs out.2 = [].
Proof. vm_compute. done. Qed.

(** C5, against the claim: with the low-stock threshold set to 2, a sale that
    leaves 2 in stock is processed and alerts no manager. *)
Lemma stock_two_at_threshold_two_unalerted :
  let settings := [{| Settings.category := "inventory";
                      Settings.setting_key := "low_stock_threshold";
                      Settings.setting_value := "2" |}] in
  let out := post_api_sales Sample.py (Sample.env [])
               (Sample.request 100 [Sample.item 1 1 100]) (Sample.shop 3 9 settings) in
  out.1 = SaleProcessed 1 "RCP-20260309-3F2A9C01"
  /\ Part.stock_quantity <$> parts out.2 !! 1 = Some 2
  /\ users_by_role "manager" out.2 = [Sample.manager]
  /\ List.filter is_inventory (created (Sample.shop 3 9 settings) out.2) = [].
Proof. vm_compute. done. Qed.

(** C5, as the code has it.  After a processed sale the notifications of
    category "inventory" it created are, line by line of the cart: one
    warning for each user of role "manager", naming the part and what is
    left of it, when the stock the line leaves is at most 2 and below the
    low-stock threshold (the stored setting, 5 without one); none for a line
    that leaves more than 2 or no less than the threshold. *)
Theorem critical_alerts_created (py : Builtins) (env : Env) (req : Request.t)
    (db db' : DB) (sid : Z) (rcp : string) :
  post_api_sales py env req db = (SaleProcessed sid rcp, db') ->
  exists thr,
    low_stock_threshold py db = Some thr
    /\ List.filter is_inventory (created db db') = critical_alerts req thr db'.
Proof.
  intros Hpost.
  pose proof (post_api_sales_cases py env req db) as Hc. rewrite Hpost in Hc.
  destruct Hc as (_ & _ & _ & _ & thr & k & Hthr & ->).
  exists thr. split; [done|].
  erewrite created_app by reflexivity.
  rewrite !List.filter_app.
  rewrite (filter_all is_inventory (critical_alerts _ _ _)).
  2: { apply critical_alerts_Forall. unfold is_inventory. by intros n ->. }
  rewrite (filter_none is_inventory (high_value_notices _ _ _ _)).
  2: { apply high_value_notices_Forall. unfold is_inventory. by intros n _ ->. }
  rewrite (filter_none is_inventory (take _ _)).
  2: { apply Forall_take, milestone_notices_Forall. unfold is_inventory. by intros n _ ->. }
  cbn. by rewrite app_nil_r.
Qed.

(** Scenario B of the specification: the stock falls to 0, the manager is alerted. *)
Lemma critical_alerts_created_witness :
  exists thr,
    low_stock_threshold Sample.py (Sample.shop 1 9 []) = Some thr
    /\ List.filter is_inventory
         (created (Sample.shop 1 9 [])
            (post_api_sales Sample.py (Sample.env [])
               (Sample.request 50 [Sample.item 1 5 10]) (Sample.shop 1 9 [])).2)
       = critical_alerts (Sample.request 50 [Sample.item 1 5 10]) thr
           (post_api_sales Sample.py (Sample.env [])
              (Sample.request 50 [Sample.item 1 5 10]) (Sample.shop 1 9 [])).2.
Proof.
  apply (critical_alerts_created Sample.py (Sample.env [])
           (Sample.request 50 [Sample.item 1 5 10]) (Sample.shop 1 9 []) _
           1 "RCP-20260309-3F2A9C01").
  vm_compute. reflexivity.
Defined.

(** C6. After a processed sale the warnings of category "sales" it created
    are: when the declared total reaches the high-value threshold, one "High
    Value Sale" warning naming the staff member and the amount for each user
    of role "manager" and each user of role "admin"; none when the total is
    below it.  The threshold is 5000 when no value is stored. *)
Theorem high_value_alerts_created (py : Builtins) (env : Env) (req : Request.t)
    (db db' : DB) (sid : Z) (rcp : string) :
  post_api_sales py env req db = (SaleProcessed sid rcp, db') ->
  let threshold := high_value_threshold py db in
  let alert u :=
    new_notification (User.id u) "High Value Sale"
      ("High value sale of ₱" +:+ format_2f py (Request.total req)
         +:+ " processed by " +:+ User.name (current_user env) +:+ ".")
      "warning" "sales" (Some "/reports") (Some "View Reports") in
  List.filter is_sales_warning (created db db') =
    (if Qle_bool threshold (Request.total req)
     then map alert (users_by_role "manager" db) ++ map alert (users_by_role "admin" db)
     else [])
  /\ (find (fun s => String.eqb (Settings.category s) "sales"
                     && String.eqb (Settings.setting_key s) "high_value_sale_threshold")
        (settings db) = None ->
      threshold = inject_Z 5000).
Proof.
  intros Hpost threshold alert. split.
  2: { unfold threshold, high_value_threshold. by intros ->. }
  pose proof (post_api_sales_cases py env req db) as Hc. rewrite Hpost in Hc.
  destruct Hc as (_ & _ & _ & _ & thr & k & Hthr & ->).
  erewrite created_app by reflexivity.
  rewrite !List.filter_app.
  rewrite (filter_none is_sales_warning (critical_alerts _ _ _)).
  2: { apply critical_alerts_Forall. unfold is_sales_warning. intros n ->.
       apply andb_false_r. }
  rewrite (filter_all is_sales_warning (high_value_notices _ _ _ _)).
  2: { apply high_value_notices_Forall. unfold is_sales_warning. by intros n -> ->. }
  rewrite (filter_none is_sales_warning (take _ _)).
  2: { apply Forall_take, milestone_notices_Forall. unfold is_sales_warning.
       by intros n -> _. }
  cbn. by rewrite app_nil_r.
Qed.

(** Scenario C of the specification: a total of 6000 against the default 5000. *)
Lemma high_value_alerts_created_witness :
  List.filter is_sales_warning
    (created (Sample.shop 9 9 [])
       (post_api_sales Sample.py (Sample.env [])
          (Sample.request 6000 [Sample.item 1 2 100]) (Sample.shop 9 9 [])).2)
  = [new_notification 2 "High Value Sale" "High value sale of ₱6000.00 processed by Ana."
       "warning" "sales" (Some "/reports") (Some "View Reports");
     new_notification 3 "High Value Sale" "High value sale of ₱6000.00 processed by Ana."
       "warning" "sales" (Some "/reports") (Some "View Reports")].
Proof.
  apply (high_value_alerts_created Sample.py (Sample.env [])
           (Sample.request 6000 [Sample.item 1 2 100]) (Sample.shop 9 9 []) _
           1 "RCP-20260309-3F2A9C01").
  vm_compute. reflexivity.
Defined.





(** C9. A cart with two lines for the same part is refused: the request
    fails with status 500 and leaves the stored rows as it found them, no
    [Sale], no line, no stock change; and when the lines were staged, it is
    the commit that raises, on the primary key of [SaleDetail]. *)
Theorem repeated_part_refused (py : Builtins) (env : Env) (req : Request.t) (db : DB) :
  repeats_a_part (Request.items req) ->
  (exists e, post_api_sales py env req db = (SaleFailed e, db)
             /\ status_code (SaleFailed e) = 500)
  /\ (forall low w1,
        stage_sale py env req (begin env db) = (inr low, w1) ->
        exists w2, commit w1 = (inl IntegrityError, w2)).
Proof.
  intros Hrep.
  destruct (lines_refused py env req db) as [[e He] Hcommit].
  - intros [Hnd _]. by apply repeats_a_part_NoDup in Hrep.
  - split; [eauto | done].
Qed.

Lemma repeated_part_refused_witness :
  exists e,
    post_api_sales Sample.py (Sample.env [])
      (Sample.request 300 [Sample.item 1 2 100; Sample.item 1 1 100]) (Sample.shop 5 9 [])
    = (SaleFailed e, Sample.shop 5 9 [])
    /\ status_code (SaleFailed e) = 500.
Proof.
  apply (repeated_part_refused Sample.py (Sample.env [])
           (Sample.request 300 [Sample.item 1 2 100; Sample.item 1 1 100])
           (Sample.shop 5 9 [])).
  exists 0%nat, 1%nat, (Sample.item 1 2 100), (Sample.item 1 1 100).
  split_and!; [lia | reflexivity | reflexivity | reflexivity].
Defined.

(** C10. A processed sale leaves every part outside the cart as it was,
    changes nothing but the stock of the parts of the cart, and only appends
    to the tables of sales, lines, notifications and audit entries: every row
    that was there is still there, unchanged and in place.  Staff, settings
    and customers are untouched. *)
Theorem sale_frame (py : Builtins) (env : Env) (req : Request.t)
    (db db' : DB) (sid : Z) (rcp : string) :
  post_api_sales py env req db = (SaleProcessed sid rcp, db') ->
  (forall i, i ∉ map Item.id (Request.items req) -> parts db' !! i = parts db !! i)
  /\ (forall i p', parts db' !! i = Some p' ->
        exists p, parts db !! i = Some p
                  /\ Part.name p' = Part.name p /\ Part.price p' = Part.price p)
  /\ (forall i p, parts db !! i = Some p -> is_Some (parts db' !! i))
  /\ sales db `prefix_of` sales db'
  /\ sale_details db `prefix_of` sale_details db'
  /\ notifications db `prefix_of` notifications db'
  /\ audit_logs db `prefix_of` audit_logs db'
  /\ staff db' = staff db /\ settings db' = settings db /\ customers db' = customers db.
Proof.
  intros Hpost.
  pose proof (post_api_sales_cases py env req db) as Hc. rewrite Hpost in Hc.
  destruct Hc as (_ & _ & _ & [Hnd Hall] & thr & k & _ & ->). cbn.
  rewrite Forall_forall in Hall.
  split_and!; try done; try (by eexists).
  - intros i Hi. by apply staged_lookup_notin.
  - intros i p' Hp'.
    destruct (decide (i ∈ map Item.id (Request.items req))) as [Hi|Hi].
    + apply list_elem_of_fmap in Hi as (item & -> & Hin).
      destruct (Hall item Hin) as [[p Hp] _].
      rewrite (staged_lookup_in thr _ _ [] item p Hnd Hin Hp) in Hp'.
      injection Hp' as <-. exists p.
      by rewrite after_sale_name, after_sale_price.
    + rewrite staged_lookup_notin in Hp' by done. eauto.
  - intros i p Hp. apply staged_is_Some. eauto.
Qed.

Lemma sale_frame_witness :
  parts (post_api_sales Sample.py (Sample.env [])
           (Sample.request 200 [Sample.item 1 2 100]) (Sample.shop 5 9 [])).2 !! 2
  = parts (Sample.shop 5 9 []) !! 2.
Proof.
  eapply (sale_frame Sample.py (Sample.env [])
            (Sample.request 200 [Sample.item 1 2 100]) (Sample.shop 5 9 []) _
            1 "RCP-20260309-3F2A9C01").
  - vm_compute. reflexivity.
  - cbn. intros Hin. apply list_elem_of_singleton in Hin. lia.
Defined.

(** * Further properties *)

(** ** Numbers *)



Lemma div16_24 (u : Z) :
  u / 16 / 16 / 16 / 16 / 16 / 16 / 16 / 16 / 16 / 16 / 16 / 16
    / 16 / 16 / 16 / 16 / 16 / 16 / 16 / 16 / 16 / 16 / 16 / 16 = u / 2 ^ 96.
Proof. rewrite !Z.div_div by lia. reflexivity. Qed.

(** The eight characters of a number are the first eight hexadecimal digits
    of the UUID, its 32 leading bits. *)
Lemma uuid_prefix (u : Z) :
  upper (substring 0 8 (str_uuid u)) = upper (format_x 8 (u / 2 ^ 96)).
Proof.
  unfold str_uuid.
  cbv [format_x String.append substring upper].
  rewrite !(div16_24 u). reflexivity.
Qed.

Lemma append_inv_head (p s1 s2 : string) : p +:+ s1 = p +:+ s2 -> s1 = s2.
Proof. induction p as [|c p IH]; cbn; [done|]. intros [= H]. by apply IH. Qed.

Lemma hex_digit_inj (i j : Z) :
  upper_char (digit_char (i mod 16)) = upper_char (digit_char (j mod 16)) ->
  i mod 16 = j mod 16.
Proof.
  assert (Hi : 0 <= i mod 16 < 16) by (apply Z.mod_pos_bound; lia).
  assert (Hj : 0 <= j mod 16 < 16) by (apply Z.mod_pos_bound; lia).
  revert Hi Hj. generalize (i mod 16) (j mod 16). intros a b Ha Hb.
  assert (Hca : a = 0 \/ a = 1 \/ a = 2 \/ a = 3 \/ a = 4 \/ a = 5 \/ a = 6 \/ a = 7
                \/ a = 8 \/ a = 9 \/ a = 10 \/ a = 11 \/ a = 12 \/ a = 13 \/ a = 14
                \/ a = 15) by lia.
  assert (Hcb : b = 0 \/ b = 1 \/ b = 2 \/ b = 3 \/ b = 4 \/ b = 5 \/ b = 6 \/ b = 7
                \/ b = 8 \/ b = 9 \/ b = 10 \/ b = 11 \/ b = 12 \/ b = 13 \/ b = 14
                \/ b = 15) by lia.
  clear Ha Hb.
  repeat (destruct Hca as [-> | Hca]); try subst a;
    repeat (destruct Hcb as [-> | Hcb]); try subst b;
    first [reflexivity | (intros Heq; vm_compute in Heq; discriminate Heq)].
Qed.

Lemma format_x_8_inj (a b : Z) :
  0 <= a < 2 ^ 32 -> 0 <= b < 2 ^ 32 ->
  upper (format_x 8 a) = upper (format_x 8 b) -> a = b.
Proof.
  intros Ha Hb. cbv [format_x String.append upper].
  intros [= H7 H6 H5 H4 H3 H2 H1 H0].
  apply hex_digit_inj in H0, H1, H2, H3, H4, H5, H6, H7.
  repeat match goal with
         | H : context [?x / 16] |- _ =>
             lazymatch goal with
             | _ : x = 16 * (x / 16) + x mod 16 |- _ => fail
             | _ => pose proof (Z.div_mod x 16 ltac:(lia))
             end
         end.
  assert (a / 16 / 16 / 16 / 16 / 16 / 16 / 16 / 16 = 0).
  { rewrite !Z.div_div by lia. apply Z.div_small. lia. }
  assert (b / 16 / 16 / 16 / 16 / 16 / 16 / 16 / 16 = 0).
  { rewrite !Z.div_div by lia. apply Z.div_small. lia. }
  pose proof (Z.div_mod (a / 16 / 16 / 16 / 16 / 16 / 16 / 16) 16 ltac:(lia)).
  pose proof (Z.div_mod (b / 16 / 16 / 16 / 16 / 16 / 16 / 16) 16 ltac:(lia)).
  lia.
Qed.

(** X2. The random part of a receipt number is the 32 leading bits of the
    UUID: on the same day, two UUIDs give the same receipt number exactly
    when they agree on these bits. *)
Theorem receipt_numbers_collide (now : datetime) (u1 u2 : Z) :
  0 <= u1 < 2 ^ 128 -> 0 <= u2 < 2 ^ 128 ->
  generate_receipt_number now u1 = generate_receipt_number now u2
  <-> u1 / 2 ^ 96 = u2 / 2 ^ 96.
Proof.
  intros H1 H2. unfold generate_receipt_number. rewrite !uuid_prefix. split.
  - intros Heq. do 3 apply append_inv_head in Heq.
    apply format_x_8_inj in Heq; [done | |].
    + split; [apply Z.div_pos; lia | apply Z.div_lt_upper_bound; lia].
    + split; [apply Z.div_pos; lia | apply Z.div_lt_upper_bound; lia].
  - by intros ->.
Qed.

Lemma receipt_numbers_collide_witness :
  generate_receipt_number {| year := 2026; month := 3; day := 9 |}
    0x3f2a9c01aabb4cdd8eef001122334455
  = generate_receipt_number {| year := 2026; month := 3; day := 9 |}
      0x3f2a9c01000000000000000000000000.
Proof. apply receipt_numbers_collide; [lia | lia | reflexivity]. Defined.

(** ** More on the sale *)

Section FurtherSale.
Context (py : Builtins) (env : Env) (req : Request.t).

Lemma sale_insertable_insert (db : DB) :
  sale_insertable env req db <-> is_Some (insert_sale (new_sale env req) db).
Proof.
  split.
  - intros (? & ? & ?). eexists. apply insert_sale_Some. done.
  - intros [db1 H]. apply insert_sale_Some in H as (? & ? & ? & _). done.
Qed.





End FurtherSale.

(** X3. A sale whose receipt number is already used, whose staff member is
    not in the staff table or whose customer is not in the customers table
    is refused by the INSERT of its [Sale] row: the caller gets status 500
    and nothing is stored. *)
Theorem uninsertable_sale_refused (py : Builtins) (env : Env) (req : Request.t) (db : DB) :
  generate_receipt_number (utcnow env) (uuid4 env) ∈ map Sale.receipt_number (sales db)
  \/ User.id (current_user env) ∉ map User.id (staff db)
  \/ (exists c, Request.customer_id req = Some c /\ c ∉ customers db) ->
  post_api_sales py env req db = (SaleFailed IntegrityError, db)
  /\ status_code (SaleFailed IntegrityError) = 500.
Proof.
  intros Hbad. split; [|done].
  rewrite post_api_sales_phases, stage_sale_begin.
  destruct (insert_sale (new_sale env req) db) as [db1|] eqn:Hs; [|done].
  apply insert_sale_Some in Hs as (Hr & Hu & Hc & _). cbn in Hr, Hu, Hc.
  destruct Hbad as [?|[?|(c & Heq & ?)]]; [done | done |].
  rewrite Heq in Hc. done.
Qed.

Lemma uninsertable_sale_refused_witness :
  post_api_sales Sample.py (Sample.env [])
    {| Request.total := inject_Z 200; Request.paymentMethod := "cash";
       Request.customer_id := Some 8; Request.notes := "";
       Request.items := [Sample.item 1 2 100];
       Request.remote_addr := None; Request.user_agent := None |}
    (Sample.shop 5 9 [])
  = (SaleFailed IntegrityError, Sample.shop 5 9 [])
  /\ status_code (SaleFailed IntegrityError) = 500.
Proof.
  apply uninsertable_sale_refused. right; right. exists 8. split; [reflexivity|].
  cbn. intros Hin. apply list_elem_of_singleton in Hin. lia.
Defined.

(** X4. A stored low-stock threshold that [int()] does not read blocks every
    sale: whatever the request, the caller gets status 500 and nothing is
    stored, with [ValueError] once the [Sale] row itself is insertable. *)
Theorem unreadable_threshold_blocks_sales (py : Builtins) (env : Env) (req : Request.t)
    (db : DB) :
  low_stock_threshold py db = None ->
  exists e,
    post_api_sales py env req db = (SaleFailed e, db)
    /\ status_code (SaleFailed e) = 500
    /\ (sale_insertable env req db -> e = ValueError).
Proof.
  intros Hthr. rewrite post_api_sales_phases, stage_sale_begin, Hthr.
  destruct (insert_sale (new_sale env req) db) as [db1|] eqn:Hs.
  - exists ValueError. done.
  - exists IntegrityError. split_and!; try done.
    intros Hi. apply sale_insertable_insert in Hi as [? Hi]. congruence.
Qed.

Lemma unreadable_threshold_blocks_sales_witness :
  exists e,
    post_api_sales Sample.py (Sample.env []) (Sample.request 200 [Sample.item 1 2 100])
      (Sample.shop 5 9 [{| Settings.category := "inventory";
                           Settings.setting_key := "low_stock_threshold";
                           Settings.setting_value := "five" |}])
    = (SaleFailed e,
       Sample.shop 5 9 [{| Settings.category := "inventory";
                           Settings.setting_key := "low_stock_threshold";
                           Settings.setting_value := "five" |}])
    /\ status_code (SaleFailed e) = 500
    /\ (sale_insertable (Sample.env []) (Sample.request 200 [Sample.item 1 2 100])
          (Sample.shop 5 9 [{| Settings.category := "inventory";
                               Settings.setting_key := "low_stock_threshold";
                               Settings.setting_value := "five" |}])
        -> e = ValueError).
Proof. apply unreadable_threshold_blocks_sales. reflexivity. Defined.

Section AllOrNothing.
Context (py : Builtins) (env : Env) (req : Request.t).

(** X5. All or nothing, whatever the answer.  After any request, processed
    or failed, either the stored rows are exactly those it found, or the
    whole sale is stored: its [Sale] row, one line per cart line, and the
    stock every line leaves.  A failure met after the commit is of the second
    kind. *)
Theorem sale_all_or_nothing (db db' : DB) (r : Response) :
  post_api_sales py env req db = (r, db') ->
  db' = db
  \/ (sales db' = sales db ++ [new_sale env req]
      /\ sale_details db' = sale_details db ++ map (new_sale_detail env req) (Request.items req)
      /\ forall item, item ∈ Request.items req ->
           exists p, parts db !! Item.id item = Some p
                     /\ parts db' !! Item.id item = Some (after_sale (Item.quantity item) p)).
Proof.
  rewrite post_api_sales_phases, stage_sale_begin.
  destruct (insert_sale (new_sale env req) db) as [db1|] eqn:Hs; [|intros [= _ <-]; by left].
  destruct (low_stock_threshold py db) as [thr|]; [|intros [= _ <-]; by left].
  unfold commit. cbn [pending session faults stored].
  destruct (flush_details _ _) as [db2|] eqn:Hfl; [|intros [= _ <-]; by left].
  apply (flush_staged env req thr db db1) in Hfl as [[Hnd Hall] ->]; [|done].
  assert (Hlow : forall i, i ∈ (staged thr (Request.items req) (parts db) []).2 ->
                   is_Some (parts (sold env req thr db) !! i))
    by (intros i; by apply staged_low_loaded).
  assert (Hsold : forall ns al,
            let d := with_audit_logs al (add_notifications ns (sold env req thr db)) in
            sales d = sales db ++ [new_sale env req]
            /\ sale_details d = sale_details db
                                ++ map (new_sale_detail env req) (Request.items req)
            /\ forall item, item ∈ Request.items req ->
                 exists p, parts db !! Item.id item = Some p
                           /\ parts d !! Item.id item
                              = Some (after_sale (Item.quantity item) p)).
  { intros ns al. cbn. split_and!; try done. intros item Hin.
    rewrite Forall_forall in Hall. destruct (Hall item Hin) as [[p Hp] _].
    exists p. split; [done|]. by apply staged_lookup_in. }
  destruct (commit_results env) as [|[] fs]; [| |intros [= _ <-]; by left].
  all: match goal with
       | |- context [after_commit py env req ?low ?w] =>
           pose proof (after_commit_cases py env req low w (conj eq_refl eq_refl) Hlow) as Hac;
             destruct (after_commit py env req low w) as [[e|r'] w3]
       end.
  all: cbn [stored] in Hac; intros [= _ <-]; right.
  - destruct Hac as [_ [ns ->]].
    apply (Hsold ns (audit_logs (add_notifications ns (sold env req thr db)))).
  - destruct Hac as [_ [k ->]]. apply Hsold.
  - destruct Hac as [_ [ns ->]].
    apply (Hsold ns (audit_logs (add_notifications ns (sold env req thr db)))).
  - destruct Hac as [_ [k ->]]. apply Hsold.
Qed.

End AllOrNothing.

Lemma sale_all_or_nothing_witness :
  let out := post_api_sales Sample.py (Sample.env [true; false])
               (Sample.request 6000 [Sample.item 1 2 100]) (Sample.shop 9 9 []) in
  out.2 = Sample.shop 9 9 []
  \/ (sales out.2 = sales (Sample.shop 9 9 [])
                    ++ [new_sale (Sample.env [true; false])
                          (Sample.request 6000 [Sample.item 1 2 100])]
      /\ sale_details out.2 =
         sale_details (Sample.shop 9 9 [])
         ++ map (new_sale_detail (Sample.env [true; false])
                   (Sample.request 6000 [Sample.item 1 2 100])) [Sample.item 1 2 100]
      /\ forall item, item ∈ [Sample.item 1 2 100] ->
           exists p, parts (Sample.shop 9 9 []) !! Item.id item = Some p
                     /\ parts out.2 !! Item.id item = Some (after_sale (Item.quantity item) p)).
Proof.
  apply (sale_all_or_nothing Sample.py (Sample.env [true; false])
           (Sample.request 6000 [Sample.item 1 2 100]) (Sample.shop 9 9 []) _
           (SaleFailed OperationalError)).
  vm_compute. reflexivity.
Defined.

(** ** Which requests are processed *)





(** X8. Every processed sale tells the staff member who made it, once: the
    notifications of type "success" it created are one "Sale Completed"
    notice for the current user, naming the receipt number and the declared
    total. *)
Theorem completion_notice_created (py : Builtins) (env : Env) (req : Request.t)
    (db db' : DB) (sid : Z) (rcp : string) :
  post_api_sales py env req db = (SaleProcessed sid rcp, db') ->
  List.filter is_success (created db db') =
  [new_notification (User.id (current_user env)) "Sale Completed"
     (rcp +:+ " completed for ₱" +:+ format_2f py (Request.total req) +:+ ".")
     "success" "sales" (Some "/sales") (Some "View Sale")].
Proof.
  intros Hpost.
  pose proof (post_api_sales_cases py env req db) as Hc. rewrite Hpost in Hc.
  destruct Hc as (_ & -> & _ & _ & thr & k & _ & ->).
  erewrite created_app by reflexivity.
  rewrite !List.filter_app.
  rewrite (filter_none is_success (critical_alerts _ _ _)).
  2: { apply Forall_flat_map, Forall_true. intros item.
       destruct (parts _ !! _) as [p|]; [|constructor].
       destruct (_ && _); [|constructor]. by apply fan_out_Forall. }
  rewrite (filter_none is_success (high_value_notices _ _ _ _)).
  2: { apply high_value_notices_Forall. unfold is_success. by intros n -> _. }
  rewrite (filter_none is_success (take _ _)).
  2: { apply Forall_take, milestone_notices_Forall. unfold is_success. by intros n -> _. }
  cbn [app List.filter]. unfold completion_notice. cbn [Sale.receipt_number new_sale].
  assert (Hne : String.eqb (generate_receipt_number (utcnow env) (uuid4 env)) "" = false).
  { unfold generate_receipt_number. reflexivity. }
  rewrite Hne. reflexivity.
Qed.

Lemma completion_notice_created_witness :
  List.filter is_success
    (created (Sample.shop 5 9 [])
       (post_api_sales Sample.py (Sample.env [])
          (Sample.request 200 [Sample.item 1 2 100]) (Sample.shop 5 9 [])).2)
  = [new_notification 1 "Sale Completed" "RCP-20260309-3F2A9C01 completed for ₱200.00."
       "success" "sales" (Some "/sales") (Some "View Sale")].
Proof.
  rewrite (completion_notice_created Sample.py (Sample.env [])
             (Sample.request 200 [Sample.item 1 2 100]) (Sample.shop 5 9 [])
             (post_api_sales Sample.py (Sample.env [])
                (Sample.request 200 [Sample.item 1 2 100]) (Sample.shop 5 9 [])).2
             1 "RCP-20260309-3F2A9C01").
  - vm_compute. reflexivity.
  - vm_compute. reflexivity.
Defined.

(** X9. The rows of a processed sale.  It adds one [Sale] row with the
    fields of the request, the current user and the receipt number of the
    answer; one line per cart line, in the order of the cart, with the
    quantity and the price of the request; and one audit entry, an action
    "create" on table "sales" by the current user, carrying the sale id, the
    total, the payment method, the customer and the cart. *)
Theorem sale_rows_stored (py : Builtins) (env : Env) (req : Request.t)
    (db db' : DB) (sid : Z) (rcp : string) :
  post_api_sales py env req db = (SaleProcessed sid rcp, db') ->
  sales db' =
    sales db ++ [{| Sale.id := sid;
                    Sale.total_amount := Request.total req;
                    Sale.payment_method := Request.paymentMethod req;
                    Sale.staff_id := User.id (current_user env);
                    Sale.customer_id := Request.customer_id req;
                    Sale.receipt_number := rcp;
                    Sale.notes := Request.notes req |}]
  /\ sale_details db' =
       sale_details db
       ++ map (fun item => {| SaleDetail.sale_id := sid;
                              SaleDetail.part_id := Item.id item;
                              SaleDetail.quantity := Item.quantity item;
                              SaleDetail.price_at_sale := Item.price item |})
            (Request.items req)
  /\ audit_logs db' =
       audit_logs db
       ++ [{| AuditLog.user_id := Some (User.id (current_user env));
              AuditLog.action_type := "create";
              AuditLog.table_name := "sales";
              AuditLog.record_id := Some sid;
              AuditLog.old_values := None;
              AuditLog.new_values :=
                Some {| SaleValues.total_amount := Request.total req;
                        SaleValues.payment_method := Request.paymentMethod req;
                        SaleValues.customer_id := Request.customer_id req;
                        SaleValues.items := Request.items req |};
              AuditLog.ip_address := Request.remote_addr req;
              AuditLog.user_agent := Request.user_agent req |}].
Proof.
  intros Hpost.
  pose proof (post_api_sales_cases py env req db) as Hc. rewrite Hpost in Hc.
  destruct Hc as (-> & -> & _ & _ & thr & k & _ & ->). done.
Qed.

Lemma sale_rows_stored_witness :
  map SaleDetail.quantity
    (sale_details (post_api_sales Sample.py (Sample.env [])
                     (Sample.request 1 [Sample.item 1 2 100; Sample.item 2 3 50])
                     (Sample.shop 5 9 [])).2)
  = [2; 3].
Proof.
  destruct (sale_rows_stored Sample.py (Sample.env [])
              (Sample.request 1 [Sample.item 1 2 100; Sample.item 2 3 50])
              (Sample.shop 5 9 [])
              (post_api_sales Sample.py (Sample.env [])
                 (Sample.request 1 [Sample.item 1 2 100; Sample.item 2 3 50])
                 (Sample.shop 5 9 [])).2
              1 "RCP-20260309-3F2A9C01") as (_ & Hd & _).
  - vm_compute. reflexivity.
  - rewrite Hd. reflexivity.
Defined.

(** ** Notifications *)

(** The loop shared by the fan-outs: it stops at the first commit the storage
    refuses and keeps what it committed before. *)
Lemma notify_each_outcome (title message type category : string)
    (action_url action_text : option string) (users : list User.t)
    (acc : list Notification.t) (w : World) :
  clean w ->
  let notices :=
    map (fun u => new_notification (User.id u) title message type category
                    action_url action_text) users in
  let run :=
    for_each (fun notifications user =>
        notification ← create_notification (User.id user) title message type category
                         action_url action_text;
        mret (notifications ++ [notification]))
      users acc w in
  (exists w', run = (inr (acc ++ notices), w')
              /\ clean w'
              /\ stored w' = add_notifications notices (stored w)
              /\ faults w' = drop (length users) (faults w)
              /\ all_ok (take (length users) (faults w)))
  \/ (exists k w', run = (inl OperationalError, w')
                   /\ (k < length users)%nat
                   /\ stored w' = add_notifications (take k notices) (stored w)
                   /\ faults w !! k = Some false
                   /\ all_ok (take k (faults w))).
Proof.
  revert acc w. induction users as [|u users IH]; intros acc w Hc; cbn zeta.
  - left. exists w. cbn. rewrite app_nil_r, add_notifications_nil, drop_0.
    split_and!; try done. constructor.
  - cbn [for_each map length]. unfold mbind at 1, M_bind at 1.
    unfold mbind at 1, M_bind at 1.
    destruct w as [st se pe fa]. destruct Hc as [Hs Hp]. cbn in Hs, Hp. subst se pe.
    unfold create_notification at 1, mbind, M_bind, modify, commit. cbn.
    destruct fa as [|[] fs]; cbn.
    + (* no refusal scripted *)
      match goal with
      | |- context [for_each ?f users ?a ?w1] =>
          destruct (IH a w1 (conj eq_refl eq_refl)) as
            [(w' & Hrun & Hc' & Hst & Hfa & Hok)|(k & w' & Hrun & Hk & Hst & Hfa & Hok)]
      end.
      * left. exists w'. rewrite <- app_assoc in Hrun. cbn in Hrun, Hst, Hfa.
        split_and!; try done.
        -- rewrite Hst. unfold add_notifications. cbn. by rewrite <- app_assoc.
        -- rewrite Hfa. by rewrite !drop_nil.
        -- constructor.
      * cbn in Hfa. by rewrite lookup_nil in Hfa.
    + match goal with
      | |- context [for_each ?f users ?a ?w1] =>
          destruct (IH a w1 (conj eq_refl eq_refl)) as
            [(w' & Hrun & Hc' & Hst & Hfa & Hok)|(k & w' & Hrun & Hk & Hst & Hfa & Hok)]
      end.
      * left. exists w'. rewrite <- app_assoc in Hrun. cbn in Hrun, Hst, Hfa, Hok.
        split_and!; try done.
        -- rewrite Hst. unfold add_notifications. cbn. by rewrite <- app_assoc.
        -- by constructor.
      * right. exists (S k), w'. cbn in Hst, Hfa, Hok. split_and!; try done.
        -- lia.
        -- rewrite Hst. unfold add_notifications. cbn. by rewrite <- app_assoc.
        -- by constructor.
    + right. exists 0%nat, {| stored := st; session := st; pending := []; faults := fs |}.
      split_and!; try done.
      * lia.
      * cbn. by rewrite add_notifications_nil.
      * constructor.
Qed.

(** X10. [create_notification_for_role], started with nothing staged, commits
    one notification for each user of the role, in the order of the staff
    table, and returns them.  It stops at the first commit the storage
    refuses: the notifications committed before stay, the users after get
    none, and the exception is the caller's. *)
Theorem role_fan_out (role title message type category : string)
    (action_url action_text : option string) (w : World) :
  clean w ->
  let notices :=
    map (fun u => new_notification (User.id u) title message type category
                    action_url action_text)
      (List.filter (fun u => String.eqb (User.role u) role) (staff (stored w))) in
  let run := create_notification_for_role role title message type category
               action_url action_text w in
  (exists w', run = (inr notices, w')
              /\ notifications (stored w') = notifications (stored w) ++ notices
              /\ all_ok (take (length notices) (faults w)))
  \/ (exists k w', run = (inl OperationalError, w')
                   /\ (k < length notices)%nat
                   /\ notifications (stored w') = notifications (stored w) ++ take k notices
                   /\ faults w !! k = Some false).
Proof.
  intros Hc notices run.
  destruct (notify_each_outcome title message type category action_url action_text
              (users_by_role role (stored w)) [] w Hc)
    as [(w' & Hrun & _ & Hst & _ & Hok)|(k & w' & Hrun & Hk & Hst & Hfa & _)].
  - left. exists w'. unfold run, create_notification_for_role, mbind, M_bind, query.
    rewrite (proj1 Hc). cbn in Hrun. unfold notices.
    rewrite length_map in *. split_and!; [exact Hrun | by rewrite Hst | done].
  - right. exists k, w'. unfold run, create_notification_for_role, mbind, M_bind, query.
    rewrite (proj1 Hc). unfold notices. rewrite length_map.
    split_and!; [exact Hrun | done | by rewrite Hst | done].
Qed.

(** Two managers, the second commit refused: the first keeps the notice. *)
Lemma role_fan_out_witness :
  let db := {| staff := [Sample.manager; {| User.id := 4; User.name := "Dan";
                                            User.role := "manager" |}];
               settings := []; customers := []; parts := ∅; sales := [];
               sale_details := []; notifications := []; audit_logs := [] |} in
  let w := {| stored := db; session := db; pending := []; faults := [true; false] |} in
  (create_notification_for_role "manager" "T" "m" "info" "system" None None w).1
  = inl OperationalError
  /\ map Notification.user_id
       (notifications
          (stored (create_notification_for_role "manager" "T" "m" "info" "system"
                     None None w).2)) = [2].
Proof.
  intros db w.
  destruct (role_fan_out "manager" "T" "m" "info" "system" None None w (conj eq_refl eq_refl))
    as [(w' & Hrun & _ & Hok)|(k & w' & Hrun & Hk & Hst & Hfa)].
  - exfalso. vm_compute in Hok. inversion Hok as [|? ? _ Hok']. inversion Hok'. done.
  - rewrite Hrun. split; [reflexivity|]. cbn [snd]. rewrite Hst.
    destruct k as [|[|k]]; [vm_compute in Hfa; done | reflexivity | vm_compute in Hk; lia].
Defined.

(** X11. [create_notification_for_all] does the same for every row of the
    staff table, whatever the role. *)
Theorem all_fan_out (title message type category : string)
    (action_url action_text : option string) (w : World) :
  clean w ->
  let notices :=
    map (fun u => new_notification (User.id u) title message type category
                    action_url action_text) (staff (stored w)) in
  let run := create_notification_for_all title message type category
               action_url action_text w in
  (exists w', run = (inr notices, w')
              /\ notifications (stored w') = notifications (stored w) ++ notices
              /\ all_ok (take (length notices) (faults w)))
  \/ (exists k w', run = (inl OperationalError, w')
                   /\ (k < length notices)%nat
                   /\ notifications (stored w') = notifications (stored w) ++ take k notices
                   /\ faults w !! k = Some false).
Proof.
  intros Hc notices run.
  destruct (notify_each_outcome title message type category action_url action_text
              (staff (stored w)) [] w Hc)
    as [(w' & Hrun & _ & Hst & _ & Hok)|(k & w' & Hrun & Hk & Hst & Hfa & _)].
  - left. exists w'. unfold run, create_notification_for_all, mbind, M_bind, query.
    rewrite (proj1 Hc). cbn in Hrun. unfold notices.
    rewrite length_map in *. split_and!; [exact Hrun | by rewrite Hst | done].
  - right. exists k, w'. unfold run, create_notification_for_all, mbind, M_bind, query.
    rewrite (proj1 Hc). unfold notices. rewrite length_map.
    split_and!; [exact Hrun | done | by rewrite Hst | done].
Qed.

Lemma all_fan_out_witness :
  let w := {| stored := Sample.shop 5 9 []; session := Sample.shop 5 9 [];
              pending := []; faults := [] |} in
  map Notification.user_id
    (notifications (stored (create_notification_for_all "T" "m" "info" "system"
                              None None w).2)) = [1; 2; 3].
Proof.
  intros w.
  destruct (all_fan_out "T" "m" "info" "system" None None w (conj eq_refl eq_refl))
    as [(w' & Hrun & Hst & _)|(k & w' & Hrun & Hk & Hst & Hfa)].
  - rewrite Hrun. cbn [snd]. rewrite Hst. reflexivity.
  - vm_compute in Hfa. destruct k; done.
Defined.

Lemma unread_of_marked (uid : Z) (n : Notification.t) :
  unread_of uid (if unread_of uid n then set_read n else n) = false.
Proof.
  destruct (unread_of uid n) eqn:Hn; [|done].
  unfold unread_of. cbn. by rewrite andb_false_r.
Qed.

Lemma unread_of_other_marked (uid other : Z) (n : Notification.t) :
  other <> uid ->
  (if unread_of uid n then set_read n else n) = n \/ unread_of other n = false.
Proof.
  intros Hne. unfold unread_of.
  destruct (Z.eqb_spec (Notification.user_id n) uid) as [Hu|Hu]; cbn; [|by left].
  right. destruct (Z.eqb_spec (Notification.user_id n) other); [congruence | done].
Qed.

Lemma marked_unread_none (uid : Z) (l : list Notification.t) :
  List.filter (unread_of uid)
    (map (fun n => if unread_of uid n then set_read n else n) l) = [].
Proof.
  induction l as [|n l IH]; [done|]. cbn [map List.filter].
  by rewrite unread_of_marked.
Qed.

Lemma marked_unread_other (uid other : Z) (l : list Notification.t) :
  other <> uid ->
  List.filter (unread_of other)
    (map (fun n => if unread_of uid n then set_read n else n) l)
  = List.filter (unread_of other) l.
Proof.
  intros Hne. induction l as [|n l IH]; [done|]. cbn [map List.filter]. rewrite IH.
  destruct (unread_of_other_marked uid other n Hne) as [->|Hn]; [done|].
  rewrite Hn.
  assert (Hm : unread_of other (if unread_of uid n then set_read n else n) = false).
  { destruct (unread_of uid n); [|done]. unfold unread_of in *. cbn.
    by rewrite andb_false_r. }
  by rewrite Hm.
Qed.

(** X12. "Mark all as read" ([mark_all_notifications_as_read] over
    [mark_all_notifications_read]), started with nothing staged.  When the
    commit goes through, [marked_count] is the unread count of the user
    before, the [unread_count] the answer states without counting (0) is the
    unread count of the user after, every unread notification of the user is
    marked and nothing else changes: the unread counts of the other users are
    what they were.  When the storage refuses the commit, the exception is
    the caller's and nothing is stored. *)
Theorem marked_all_read (current_user : User.t) (w : World) :
  clean w ->
  match mark_all_notifications_as_read current_user w with
  | (inr answer, w') =>
      get_unread_count (User.id current_user) w = (inr (marked_count answer), w)
      /\ get_unread_count (User.id current_user) w' = (inr (unread_count answer), w')
      /\ (forall other, other <> User.id current_user ->
            (get_unread_count other w').1 = (get_unread_count other w).1)
      /\ notifications (stored w') =
         map (fun n => if unread_of (User.id current_user) n then set_read n else n)
           (notifications (stored w))
      /\ stored w' = with_notifications (notifications (stored w')) (stored w)
  | (inl e, w') => e = OperationalError /\ stored w' = stored w
  end.
Proof.
  destruct w as [st se pe fa]. intros [Hs Hp]. cbn in Hs, Hp. subst se pe.
  unfold mark_all_notifications_as_read, mark_all_notifications_read, get_unread_count,
    mbind, M_bind, mret, M_ret, query, modify, commit.
  cbn. destruct fa as [|[] fs]; cbn; [| |done].
  all: rewrite marked_unread_none; split_and!; try done.
  all: intros other Hne; by rewrite marked_unread_other.
Qed.

Lemma marked_all_read_witness :
  let mine := new_notification 1 "A" "a" "info" "system" None None in
  let yours := new_notification 2 "B" "b" "info" "system" None None in
  let db := with_notifications [mine; yours; mine] (Sample.shop 5 9 []) in
  let w := {| stored := db; session := db; pending := []; faults := [] |} in
  (mark_all_notifications_as_read Sample.cashier w).1
  = inr {| marked_count := 2; unread_count := 0 |}
  /\ (get_unread_count 1 (mark_all_notifications_as_read Sample.cashier w).2).1 = inr 0
  /\ (get_unread_count 2 (mark_all_notifications_as_read Sample.cashier w).2).1 = inr 1.
Proof.
  intros mine yours db w.
  pose proof (marked_all_read Sample.cashier w (conj eq_refl eq_refl)) as H.
  destruct (mark_all_notifications_as_read Sample.cashier w) as [[e|answer] w'] eqn:Hrun.
  - vm_compute in Hrun. discriminate Hrun.
  - destruct H as (_ & Hafter & Hother & _). cbn [fst snd].
    change (User.id Sample.cashier) with 1 in Hafter, Hother.
    split_and!.
    + vm_compute in Hrun. by injection Hrun as <- _.
    + rewrite Hafter. vm_compute in Hrun. by injection Hrun as <- _.
    + rewrite (Hother 2) by lia. reflexivity.
Defined.

Lemma filter_owned_cleared (uid : Z) (l : list Notification.t) :
  List.filter (owned_by uid) (List.filter (fun n => negb (owned_by uid n)) l) = [].
Proof.
  induction l as [|n l IH]; [done|]. cbn [List.filter].
  destruct (owned_by uid n) eqn:Hn; cbn [negb List.filter]; [done|]. by rewrite Hn.
Qed.

(** X13. "Clear all" ([clear_all_notifications]), started with nothing
    staged.  When the commit goes through, the notifications of the current
    user are gone, those of the other users are kept as they were and in
    order, and the [cleared_count] of the answer, counted after the deletion,
    is 0 however many rows were cleared.  When the storage refuses the
    commit, nothing is deleted. *)
Theorem cleared_all (current_user : User.t) (w : World) :
  clean w ->
  match clear_all_notifications current_user w with
  | (inr cleared_count, w') =>
      cleared_count = 0
      /\ notifications (stored w') =
         List.filter (fun n => negb (Notification.user_id n =? User.id current_user))
           (notifications (stored w))
      /\ stored w' = with_notifications (notifications (stored w')) (stored w)
  | (inl e, w') => e = OperationalError /\ stored w' = stored w
  end.
Proof.
  destruct w as [st se pe fa]. intros [Hs Hp]. cbn in Hs, Hp. subst se pe.
  unfold clear_all_notifications, mbind, M_bind, query, modify, commit.
  cbn. destruct fa as [|[] fs]; cbn; [| |done].
  all: by rewrite filter_owned_cleared.
Qed.

Lemma cleared_all_witness :
  let mine := new_notification 1 "A" "a" "info" "system" None None in
  let yours := new_notification 2 "B" "b" "info" "system" None None in
  let db := with_notifications [mine; yours; mine] (Sample.shop 5 9 []) in
  let w := {| stored := db; session := db; pending := []; faults := [] |} in
  (clear_all_notifications Sample.cashier w).1 = inr 0
  /\ notifications (stored (clear_all_notifications Sample.cashier w).2) = [yours].
Proof.
  intros mine yours db w.
  pose proof (cleared_all Sample.cashier w (conj eq_refl eq_refl)) as H.
  destruct (clear_all_notifications Sample.cashier w) as [[e|n] w'] eqn:Hrun.
  - vm_compute in Hrun. discriminate Hrun.
  - destruct H as (-> & Hst & _). cbn [fst snd]. split; [done|]. rewrite Hst. reflexivity.
Defined.

(** X14. Low-stock alerts are off unless the setting says "true": when the
    [inventory/low_stock_alert] row is missing, or holds anything but
    ["true"], [check_low_stock_alerts] returns at once: it creates nothing,
    commits nothing, and does not even read the threshold, so a threshold
    that is no integer raises nothing. *)
Theorem low_stock_alerts_off (py : Builtins) (w : World) :
  (forall s,
     find (fun s => String.eqb (Settings.category s) "inventory"
                    && String.eqb (Settings.setting_key s) "low_stock_alert")
       (settings (session w)) = Some s ->
     Settings.setting_value s <> "true") ->
  check_low_stock_alerts py w = (inr tt, w).
Proof.
  intros Hoff. unfold check_low_stock_alerts, mbind, M_bind, Settings_first, query.
  destruct (find (fun s => String.eqb (Settings.category s) "inventory"
                            && String.eqb (Settings.setting_key s) "low_stock_alert")
              (settings (session w))) as [s|] eqn:Hs; [|done].
  specialize (Hoff s eq_refl).
  destruct (String.eqb_spec (Settings.setting_value s) "true"); [done | reflexivity].
Qed.

Lemma low_stock_alerts_off_witness :
  let db := Sample.shop 1 1 [{| Settings.category := "inventory";
                                Settings.setting_key := "low_stock_threshold";
                                Settings.setting_value := "five" |}] in
  let w := {| stored := db; session := db; pending := []; faults := [] |} in
  check_low_stock_alerts Sample.py w = (inr tt, w).
Proof. intros db w. apply low_stock_alerts_off. intros s Hs. vm_compute in Hs. done. Defined.





(** ** The [escapejs] filter *)

Lemma append_cons (x : ascii) (a b : string) : String x a +:+ b = String x (a +:+ b).
Proof. reflexivity. Qed.

Lemma occurs_append (c : ascii) (a b : string) :
  occurs c (a +:+ b) = occurs c a || occurs c b.
Proof.
  induction a as [|x a IH]; [done|]. rewrite append_cons. cbn [occurs].
  by rewrite IH, orb_assoc.
Qed.

(** A replacement removes its own character, and brings in no character its
    replacement text is free of. *)
Lemma occurs_replace_char (c d : ascii) (r s : string) :
  occurs c r = false ->
  d = c \/ occurs c s = false ->
  occurs c (replace_char d r s) = false.
Proof.
  intros Hr. induction s as [|a t IH]; intros H; cbn; [done|].
  destruct (Ascii.eqb_spec a d) as [->|Hne].
  - rewrite occurs_append, Hr. cbn. apply IH.
    destruct H as [?|H]; [by left|]. right. cbn in H. by apply orb_false_elim in H as [_ ?].
  - cbn. destruct H as [<-|H].
    + destruct (Ascii.eqb_spec a d) as [|_]; [done|]. cbn. apply IH. by left.
    + cbn in H. apply orb_false_elim in H as [-> H]. cbn. apply IH. by right.
Qed.

Lemma replace_char_absent (c : ascii) (r s : string) :
  occurs c s = false -> replace_char c r s = s.
Proof.
  induction s as [|a t IH]; cbn; [done|]. intros H.
  apply orb_false_elim in H as [-> H]. by rewrite IH.
Qed.

Lemma length_append (a b : string) :
  String.length (a +:+ b) = (String.length a + String.length b)%nat.
Proof.
  induction a as [|x a IH]; [done|]. rewrite append_cons. cbn [String.length].
  by rewrite IH.
Qed.

Lemma length_replace_char (c : ascii) (r s : string) :
  (1 <= String.length r)%nat ->
  (String.length s <= String.length (replace_char c r s))%nat.
Proof.
  intros Hr. induction s as [|a t IH]; cbn; [done|].
  destruct (Ascii.eqb a c); [rewrite length_append | cbn]; lia.
Qed.

(** A replacement by a longer text keeps the length only when it replaces
    nothing. *)
Lemma replace_char_same_length (c : ascii) (r s : string) :
  (2 <= String.length r)%nat ->
  (String.length (replace_char c r s) <= String.length s)%nat ->
  occurs c s = false.
Proof.
  intros Hr. induction s as [|a t IH]; cbn; [done|].
  pose proof (length_replace_char c r t) as Hle.
  destruct (Ascii.eqb a c); [rewrite length_append | cbn]; intros H; [lia|].
  apply IH. lia.
Qed.

Ltac through_replacements :=
  repeat (apply occurs_replace_char; [reflexivity|]; first [by left | right]).

(** [html.escape] leaves no quote of either kind. *)
Lemma html_escape_no_quote (value : string) :
  occurs "'" (html_escape value) = false
  /\ occurs double_quote (html_escape value) = false.
Proof. unfold html_escape. split; through_replacements. Qed.

Lemma escapejs_without_quotes (value : string) :
  escapejs value =
  replace_char tab (String backslash "t")
    (replace_char carriage_return (String backslash "r")
       (replace_char line_feed (String backslash "n")
          (replace_char backslash (String backslash (String backslash ""))
             (html_escape value)))).
Proof.
  unfold escapejs. destruct (html_escape_no_quote value) as [H1 H2].
  rewrite (replace_char_absent "'").
  2: { by apply occurs_replace_char; [reflexivity | right]. }
  rewrite (replace_char_absent double_quote); [done|].
  by apply occurs_replace_char; [reflexivity | right].
Qed.

(** X16. What [escapejs] returns holds none of the characters that end or
    break a quoted string of a script in a page: no [<], no [>], no quote of
    either kind, no line feed, no carriage return and no tab, whatever the
    text. *)
Theorem escapejs_output_safe (value : string) (c : ascii) :
  c ∈ unsafe_in_script -> occurs c (escapejs value) = false.
Proof.
  intros Hc. unfold unsafe_in_script in Hc.
  repeat (apply elem_of_cons in Hc as [->|Hc]); [..|by apply elem_of_nil in Hc].
  all: rewrite escapejs_without_quotes; unfold html_escape; through_replacements.
Qed.

Lemma escapejs_output_safe_witness :
  occurs "<" (escapejs "</script><script>alert('x')</script>") = false.
Proof. apply escapejs_output_safe. unfold unsafe_in_script. constructor. Defined.

(** X17. [escapejs] returns a text unchanged exactly when the text holds
    none of the nine characters it rewrites: [&], the backslash, [<], [>],
    the two quotes, line feed, carriage return and tab. *)
Theorem escapejs_unchanged_iff (value : string) :
  escapejs value = value
  <-> forall c, c ∈ rewritten_by_escapejs -> occurs c value = false.
Proof.
  split.
  - intros Heq.
    assert (Hlen : (String.length (escapejs value) <= String.length value)%nat)
      by (rewrite Heq; lia).
    clear Heq. rewrite escapejs_without_quotes in Hlen. unfold html_escape in Hlen.
    repeat match type of Hlen with
    | (String.length (replace_char ?c ?r ?s) <= _)%nat =>
        let H := fresh "Hno" in
        assert (H : occurs c s = false);
        [ apply (replace_char_same_length c r); [cbn; lia|];
          pose proof (length_replace_char c r s ltac:(cbn; lia));
          repeat match goal with
          | |- context [replace_char ?c' ?r' ?s'] =>
              lazymatch goal with
              | _ : (String.length s' <= String.length (replace_char c' r' s'))%nat |- _ => fail
              | _ => pose proof (length_replace_char c' r' s' ltac:(cbn; lia))
              end
          end; lia
        | rewrite (replace_char_absent c r s H) in Hlen ]
    end.
    repeat match goal with
    | H : occurs ?c ?s = false |- _ => rewrite (replace_char_absent c _ s H) in *
    end.
    intros c Hc. unfold rewritten_by_escapejs, unsafe_in_script in Hc.
    repeat (apply elem_of_cons in Hc as [->|Hc]); [..|by apply elem_of_nil in Hc].
    all: done.
  - intros Hno. unfold escapejs, html_escape.
    repeat (rewrite (replace_char_absent _ _ value);
            [| apply Hno; unfold rewritten_by_escapejs, unsafe_in_script;
               by repeat constructor]).
    reflexivity.
Qed.

Lemma escapejs_unchanged_iff_witness : escapejs "Brake pad" = "Brake pad".
Proof.
  apply escapejs_unchanged_iff. intros c Hc.
  unfold rewritten_by_escapejs, unsafe_in_script in Hc.
  repeat (apply elem_of_cons in Hc as [->|Hc]); [..|by apply elem_of_nil in Hc].
  all: reflexivity.
Defined.

Lemma append_assoc (a b c : string) : (a +:+ b) +:+ c = a +:+ (b +:+ c).
Proof. induction a as [|x a IH]; [done|]. by rewrite !append_cons, IH. Qed.

Lemma replace_char_append (c : ascii) (r a b : string) :
  replace_char c r (a +:+ b) = replace_char c r a +:+ replace_char c r b.
Proof.
  induction a as [|x a IH]; [done|]. rewrite append_cons. cbn [replace_char].
  destruct (Ascii.eqb x c); by rewrite IH, ?append_assoc.
Qed.

Lemma escapejs_append (a b : string) : escapejs (a +:+ b) = escapejs a +:+ escapejs b.
Proof. unfold escapejs, html_escape. by rewrite !replace_char_append. Qed.

(** X18. [escapejs] works character by character, although it is written as
    eleven replacements over the whole text: no replacement rewrites what an
    earlier one wrote.  Each character is written as in the table of
    [escaped_char]; in particular a quote of either kind is written as its
    entity and never with a backslash, the two replacements of quotes finding
    nothing to replace. *)
Theorem escapejs_char_by_char (a : ascii) (value : string) :
  escapejs "" = ""
  /\ escapejs (String a value) = escaped_char a +:+ escapejs value.
Proof.
  split; [reflexivity|].
  change (String a value) with (String a "" +:+ value). rewrite escapejs_append. f_equal.
  destruct a as [[] [] [] [] [] [] [] []]; vm_compute; reflexivity.
Qed.

(** ** The guards of the views *)

Lemma has_role_elem_of (u : User.t) (roles : list string) :
  has_role u roles = true <-> User.role u ∈ roles.
Proof.
  unfold has_role. rewrite existsb_exists. split.
  - intros (r & Hin & Heq). apply String.eqb_eq in Heq as ->. by apply list_elem_of_In.
  - intros Hin. exists (User.role u). split; [by apply list_elem_of_In | apply String.eqb_refl].
Qed.

(** X19. Who the guards let through.  Each guard serves the view to an
    authenticated visitor whose role is, letter for letter, one of its roles,
    and to nobody else: [admin_required] to "admin", [manager_required] to
    "admin" and "manager", [role_required] to the roles it is given.  So
    [manager_required] and [role_required] with "admin" and "manager" serve
    the same visitors, and whoever passes [admin_required] passes
    [manager_required].  An anonymous visitor is sent to the login page by
    all three. *)
Theorem guards_by_role {A : Type} (f : A) (visitor : option User.t) (roles : list string) :
  (admin_required f visitor = Served f
   <-> exists u, visitor = Some u /\ User.role u = "admin")
  /\ (manager_required f visitor = Served f
      <-> exists u, visitor = Some u /\ (User.role u = "admin" \/ User.role u = "manager"))
  /\ (role_required roles f visitor = Served f
      <-> exists u, visitor = Some u /\ User.role u ∈ roles)
  /\ (manager_required f visitor = Served f
      <-> role_required ["admin"; "manager"] f visitor = Served f)
  /\ (admin_required f visitor = Served f -> manager_required f visitor = Served f)
  /\ (visitor = None ->
      admin_required f visitor = ToLogin
      /\ manager_required f visitor = ToLogin
      /\ role_required roles f visitor = ToLogin).
Proof.
  assert (Hadmin : admin_required f visitor = Served f
                   <-> exists u, visitor = Some u /\ User.role u = "admin").
  { unfold admin_required, is_admin. destruct visitor as [u|].
    - destruct (String.eqb_spec (User.role u) "admin") as [Heq|Hne]; cbn [negb].
      + split; [eauto | done].
      + split; [done | intros (u' & [= <-] & ?); done].
    - split; [done | intros (? & ? & _); done]. }
  assert (Hmanager : manager_required f visitor = Served f
                     <-> exists u, visitor = Some u
                                   /\ (User.role u = "admin" \/ User.role u = "manager")).
  { unfold manager_required, is_admin, is_manager. destruct visitor as [u|].
    - destruct (String.eqb_spec (User.role u) "admin") as [Heq|Hne];
        destruct (String.eqb_spec (User.role u) "manager") as [Heq'|Hne']; cbn [negb orb].
      1-3: split; [eauto | done].
      split; [done | intros (u' & [= <-] & [?|?]); done].
    - split; [done | intros (? & ? & _); done]. }
  assert (Hrole : forall rs, role_required rs f visitor = Served f
                             <-> exists u, visitor = Some u /\ User.role u ∈ rs).
  { intros rs. unfold role_required. destruct visitor as [u|].
    - pose proof (has_role_elem_of u rs) as Hr.
      destruct (has_role u rs); cbn [negb].
      + split; [intros _; exists u; split; [done | by apply Hr] | done].
      + split; [done | intros (u' & [= <-] & Hin)]. apply Hr in Hin. done.
    - split; [done | intros (? & ? & _); done]. }
  split_and!; try done.
  - rewrite Hmanager, Hrole. split; intros (u & -> & H); exists u; (split; [done|]).
    + destruct H as [-> | ->]; repeat constructor.
    + apply elem_of_cons in H as [?|H]; [by left|].
      apply list_elem_of_singleton in H. by right.
  - rewrite Hadmin, Hmanager. intros (u & -> & ?). eauto.
  - by intros ->.
Qed.

Lemma guards_by_role_witness :
  manager_required "stock" (Some Sample.admin) = Served "stock".
Proof.
  destruct (guards_by_role "stock" (Some Sample.admin) []) as (_ & _ & _ & _ & H & _).
  apply H. reflexivity.
Defined.
